(** * BillingSystemApp: session lifecycle, invoice cache and financial metrics

    A shallow embedding of the logic of the billing dashboard client:

    - [src/utils/financialMetrics.ts]: [calculateFinancialMetrics],
      [formatCurrency], [formatFinancialMetrics];
    - [src/utils/invoiceCache.ts]: [saveInvoiceCache], [loadInvoiceCache];
    - [src/api/authApi.ts], [src/api/invoiceApi.ts]: [login], [fetchUser],
      [fetchInvoices];
    - [src/context/AuthContext.tsx]: [login], [logout], [restoreSession],
      [handleTokenExpiration] and the derived [isAuthenticated];
    - [src/screens/InvoicesScreen.tsx]: [loadInvoices].

    Conventions.  A JavaScript number that holds an amount or a timestamp is
    an integer of the safe-integer range and is written as a [Z]; [+] on such
    numbers is exact.  An [async] function is a state-passing function over
    the [World] it runs in, returning either a value or a thrown [Error]; the
    answers of the remote service, the clock and the failures of the
    key-value store are inputs. *)

From Stdlib Require Import ZArith List String Ascii Bool Lia QArith.
From Stdlib Require Import DecimalString DecimalN.
Import ListNotations.
Local Open Scope string_scope.
Local Open Scope Z_scope.

Set Implicit Arguments.

(** ** JavaScript values met in a decoded record *)

(** The value of a field of an object decoded from JSON: absent
    ([undefined]), [null], a boolean, a number or a string. *)
Inductive jsval : Type :=
| JUndefined
| JNull
| JBool (b : bool)
| JNum (n : Z)
| JStr (s : string).




(** ** Invoices ([src/types/invoice.ts]) *)

Record Invoice : Type := mkInvoice {
  id : jsval;
  invoice_number : jsval;
  patient_id : jsval;
  total_amount_cents : jsval;
  status : jsval;
  created_at : jsval;
  updated_at : jsval;
  currency : jsval;
  due_date : jsval;
  paid_at : jsval
}.



(** ** Financial metrics ([src/utils/financialMetrics.ts]) *)

Module FinancialMetricsCalc.








(** *** The metrics as the specification words them *)





(** A record that carries only an amount and a status beside its identifier. *)
Definition invoice_of (ident amount : Z) (st : string) : Invoice :=
  {| id := JNum ident; invoice_number := JUndefined; patient_id := JUndefined;
     total_amount_cents := JNum amount; status := JStr st;
     created_at := JUndefined; updated_at := JUndefined; currency := JUndefined;
     due_date := JUndefined; paid_at := JUndefined |}.

Definition scenario : list Invoice :=
  [ invoice_of 1 15000 "paid"; invoice_of 2 8500 "pending"; invoice_of 3 23000 "unpaid" ].

End FinancialMetricsCalc.

(** ** Currency display ([src/utils/financialMetrics.ts]) *)

(** The platform formatter
    [new Intl.NumberFormat('en-US', {style: 'currency', currency: 'USD',
    minimumFractionDigits: 2, maximumFractionDigits: 2})] on exact rationals:
    a minus sign for a negative number, the dollar sign, the integer part in
    groups of three separated by commas, a point and two fraction digits
    (rounded half away from zero). *)
Module Intl.











End Intl.

Module CurrencyFormat.
Import Intl.



(** *** Reading a displayed amount back *)





End CurrencyFormat.

(** ** Asynchronous computations *)

(** A thrown JavaScript [Error]; every value thrown in the modelled code is
    one, so [error instanceof Error] holds of each. *)
Record Error : Type := mkError { message : string }.

Definition error_eqb (e1 e2 : Error) : bool := String.eqb (message e1) (message e2).

Inductive Outcome (A : Type) : Type :=
| Return (a : A)
| Throw (e : Error).
Arguments Throw {A} e.

(** An [async] function body over a state [S]: it settles with a value or a
    thrown error, and the state changes it made before a throw stay. *)
Definition Async (S A : Type) : Type := S -> Outcome A * S.

Definition ret {S A : Type} (a : A) : Async S A := fun s => (Return a, s).

Definition throw {S A : Type} (e : Error) : Async S A := fun s => (Throw e, s).

Definition bind {S A B : Type} (m : Async S A) (k : A -> Async S B) : Async S B :=
  fun s =>
    match m s with
    | (Return a, s') => k a s'
    | (Throw e, s') => (Throw e, s')
    end.

(** [try { body } catch (error) { handler }] *)
Definition try_catch {S A : Type} (body : Async S A) (handler : Error -> Async S A)
  : Async S A :=
  fun s =>
    match body s with
    | (Return a, s') => (Return a, s')
    | (Throw e, s') => handler e s'
    end.

(** [try { body } finally { cleanup }]: the cleanup runs on both exits and
    the outcome of the body stands unless the cleanup throws. *)
Definition finally {S A : Type} (body : Async S A) (cleanup : Async S unit)
  : Async S A :=
  fun s =>
    match body s with
    | (r, s') =>
        match cleanup s' with
        | (Return _, s'') => (r, s'')
        | (Throw e, s'') => (Throw e, s'')
        end
    end.

(** A state-passing computation on one component of a pair of states. *)
Definition liftW {W V A : Type} (m : Async W A) : Async (W * V) A :=
  fun s =>
    match m (fst s) with
    | (r, w') => (r, (w', snd s))
    end.

Declare Scope async_scope.
Delimit Scope async_scope with async.
Notation "x <- m ;; k" := (bind m (fun x => k))
  (at level 61, m at next level, right associativity) : async_scope.
Notation "m ;; k" := (bind m (fun _ => k))
  (at level 61, right associativity) : async_scope.
Local Open Scope async_scope.

(** ** Authentication types ([src/types/auth.ts]) *)

Inductive UserRole : Type := admin | doctor | billing_staff | receptionist.

Record User : Type := mkUser {
  user_id : jsval;
  email : string;
  name : string;
  role : UserRole;
  user_created_at : string
}.

Record AuthTokens : Type := mkAuthTokens {
  access_token : string;
  refresh_token : string;
  token_type : string
}.

Definition LoginResponse : Type := AuthTokens.
Definition UserResponse : Type := User.

(** The three [useState] cells of [AuthProvider]. *)
Record AuthState : Type := mkAuthState {
  user : option User;
  tokens : option AuthTokens;
  loading : bool
}.

(** ** The remote service *)

(** What [fetch] settles with: a rejection when the network is unreachable,
    else a response with its status and its body, absent when the body does
    not decode as JSON. *)
Record Response (A : Type) : Type := mkResponse {
  http_status : Z;
  body : option A
}.

Inductive Reply (A : Type) : Type :=
| NetworkFailure
| Answer (response : Response A).
Arguments NetworkFailure {A}.

(** [response.ok] *)
Definition ok {A : Type} (response : Response A) : bool :=
  (200 <=? http_status response) && (http_status response <=? 299).

(** ** Durable storage ([AsyncStorage]) *)

(** A stored string: the text [JSON.stringify] writes for a value, which
    [JSON.parse] reads back as that value, or a text [JSON.parse] rejects. *)
Inductive text (A : Type) : Type :=
| Serialized (a : A)
| Malformed (raw : string).
Arguments Malformed {A} raw.

(** [!!s] for a stored string: only the empty string is falsy. *)
Definition text_truthy {A : Type} (t : text A) : bool :=
  match t with
  | Serialized _ => true
  | Malformed raw => negb (String.eqb raw EmptyString)
  end.

Record CachedInvoiceData : Type := mkCachedInvoiceData {
  invoices : list Invoice;
  timestamp : Z;
  expiresAt : Z
}.

(** The store holds the three keys the application uses; each entry has the
    type its readers declare for it. *)
Record Disk : Type := mkDisk {
  tokens_item : option (text AuthTokens);
  user_item : option (text User);
  cache_item : option (text CachedInvoiceData)
}.

Record Key (A : Type) : Type := mkKey {
  key_name : string;
  read : Disk -> option (text A);
  write : option (text A) -> Disk -> Disk
}.

Definition STORAGE_KEYS_TOKENS : Key AuthTokens :=
  {| key_name := "@auth:tokens";
     read := tokens_item;
     write := fun v d => mkDisk v (user_item d) (cache_item d) |}.

Definition STORAGE_KEYS_USER : Key User :=
  {| key_name := "@auth:user";
     read := user_item;
     write := fun v d => mkDisk (tokens_item d) v (cache_item d) |}.

Definition CACHE_KEY : Key CachedInvoiceData :=
  {| key_name := "@invoice_data_cache";
     read := cache_item;
     write := fun v d => mkDisk (tokens_item d) (user_item d) v |}.

Definition CACHE_TTL : Z := 5 * 60 * 1000.

(** ** The world an operation runs in *)

(** [auth]: the session state; [disk]: the key-value store; [clock]: the
    reading [Date.now()] gives, moved by the environment between operations;
    [faults]: for each coming call of the store, whether it fails;
    [console]: the labels logged; [frames]: the session states committed at
    the suspension points, latest first. *)
Record World : Type := mkWorld {
  auth : AuthState;
  disk : Disk;
  clock : Z;
  faults : list bool;
  console : list string;
  frames : list AuthState
}.

Definition set_auth (a : AuthState) (w : World) : World :=
  mkWorld a (disk w) (clock w) (faults w) (console w) (frames w).
Definition set_disk (d : Disk) (w : World) : World :=
  mkWorld (auth w) d (clock w) (faults w) (console w) (frames w).
Definition set_clock (t : Z) (w : World) : World :=
  mkWorld (auth w) (disk w) t (faults w) (console w) (frames w).
Definition set_faults (f : list bool) (w : World) : World :=
  mkWorld (auth w) (disk w) (clock w) f (console w) (frames w).
Definition set_console (c : list string) (w : World) : World :=
  mkWorld (auth w) (disk w) (clock w) (faults w) c (frames w).
Definition set_frames (fr : list AuthState) (w : World) : World :=
  mkWorld (auth w) (disk w) (clock w) (faults w) (console w) fr.

(** [await m]: the caller is suspended, so the session state of the moment
    is committed and can be observed, then [m] settles. *)
Definition await {A : Type} (m : Async World A) : Async World A :=
  fun w => m (set_frames (auth w :: frames w) w).

Definition console_log (label : string) : Async World unit :=
  fun w => (Return tt, set_console (label :: console w) w).

Definition console_error (label : string) : Async World unit :=
  fun w => (Return tt, set_console (label :: console w) w).

Definition Date_now : Async World Z := fun w => (Return (clock w), w).

Definition StorageError : Error := mkError "AsyncStorage failure".
Definition SyntaxError : Error := mkError "JSON Parse error".
Definition NetworkError : Error := mkError "Network request failed".

Definition JSON_stringify {A : Type} (a : A) : text A := Serialized a.

Definition JSON_parse {S A : Type} (t : text A) : Async S A :=
  match t with
  | Serialized a => ret a
  | Malformed _ => throw SyntaxError
  end.

Module AsyncStorage.

(** One call of the store: it fails when the environment says so, and a
    failed call leaves the store as it was. *)
Definition call {A : Type} (f : Disk -> A * Disk) : Async World A :=
  fun w =>
    match faults w with
    | true :: rest => (Throw StorageError, set_faults rest w)
    | false :: rest =>
        let (a, d) := f (disk w) in (Return a, set_disk d (set_faults rest w))
    | [] =>
        let (a, d) := f (disk w) in (Return a, set_disk d w)
    end.

Definition getItem {A : Type} (k : Key A) : Async World (option (text A)) :=
  call (fun d => (read k d, d)).

Definition setItem {A : Type} (k : Key A) (value : text A) : Async World unit :=
  call (fun d => (tt, write k (Some value) d)).

Definition removeItem {A : Type} (k : Key A) : Async World unit :=
  call (fun d => (tt, write k None d)).

End AsyncStorage.

(** ** The [fetch] primitives *)

Definition fetch {A : Type} (r : Reply A) : Async World (Response A) :=
  match r with
  | NetworkFailure => throw NetworkError
  | Answer response => ret response
  end.

(** [response.json()] *)
Definition response_json {A : Type} (response : Response A) : Async World A :=
  match body response with
  | Some a => ret a
  | None => throw SyntaxError
  end.

(** [response.text()] *)
Definition response_text {A : Type} (response : Response A) : Async World unit :=
  ret tt.

(** ** Authentication API ([src/api/authApi.ts]) *)

Module authApi.

Definition is_token_expired_status (st : Z) : bool := (st =? 401) || (st =? 403).

(** [login(username, password)], given what the service answers to
    [POST /auth/login]. *)
Definition login (username password : string) (r : Reply LoginResponse)
  : Async World AuthTokens :=
  try_catch
    (console_log "Login API URL:" ;;
     console_log "Login Request:" ;;
     response <- await (fetch r) ;;
     console_log "Login API Response Status:" ;;
     console_log "Login API Response OK:" ;;
     if negb (ok response) then
       (_ <- await (response_text response) ;;
        console_error "Login API Error Response:" ;;
        console_error "Login API Status:" ;;
        throw (mkError "Login failed"))
     else
       (data <- await (response_json response) ;;
        console_log "Login API Success:" ;;
        ret {| access_token := access_token data;
               refresh_token := refresh_token data;
               token_type := token_type data |}))
    (fun error =>
       console_error "Login API Exception:" ;;
       console_error "Error message:" ;;
       console_error "Error stack:" ;;
       throw (mkError "Login failed")).

(** [fetchUser(accessToken)], given what the service answers to
    [GET /auth/me]. *)
Definition fetchUser (accessToken : string) (r : Reply UserResponse)
  : Async World UserResponse :=
  try_catch
    (response <- await (fetch r) ;;
     if negb (ok response) then
       (if is_token_expired_status (http_status response)
        then throw (mkError "Token expired")
        else throw (mkError "Login failed"))
     else
       (u <- await (response_json response) ;;
        ret u))
    (fun error =>
       if String.eqb (message error) "Token expired"
       then throw error
       else throw (mkError "Login failed")).

End authApi.

(** ** Invoice API ([src/api/invoiceApi.ts]) *)

Module invoiceApi.

(** [fetchInvoices(accessToken)], given what the service answers to
    [GET /invoices/]. *)
Definition fetchInvoices (accessToken : string) (r : Reply (list Invoice))
  : Async World (list Invoice) :=
  try_catch
    (response <- await (fetch r) ;;
     if negb (ok response) then
       (if (http_status response =? 401) || (http_status response =? 403)
        then throw (mkError "Token expired")
        else throw (mkError "Failed to fetch invoices"))
     else
       (invs <- await (response_json response) ;;
        ret invs))
    (fun error =>
       if String.eqb (message error) "Token expired"
       then throw error
       else throw (mkError "Failed to fetch invoices")).

End invoiceApi.

(** ** Invoice cache ([src/utils/invoiceCache.ts]) *)

Module invoiceCache.

Definition saveInvoiceCache (invs : list Invoice) : Async World unit :=
  now <- Date_now ;;
  let cacheData :=
    {| invoices := invs; timestamp := now; expiresAt := now + CACHE_TTL |} in
  await (AsyncStorage.setItem CACHE_KEY (JSON_stringify cacheData)).

(** [null] is [None]. *)
Definition loadInvoiceCache : Async World (option (list Invoice)) :=
  try_catch
    (cached <- await (AsyncStorage.getItem CACHE_KEY) ;;
     match cached with
     | None => ret None
     | Some stored =>
         if negb (text_truthy stored) then ret None
         else
           cacheData <- JSON_parse stored ;;
           now <- Date_now ;;
           if now >? expiresAt cacheData then
             (await (AsyncStorage.removeItem CACHE_KEY) ;;
              ret None)
           else ret (Some (invoices cacheData))
     end)
    (fun error =>
       console_error "Error loading invoice cache:" ;;
       ret None).

End invoiceCache.

(** ** Session manager ([src/context/AuthContext.tsx]) *)

Module AuthContext.

Definition setUser (u : option User) : Async World unit :=
  fun w => (Return tt, set_auth (mkAuthState u (tokens (auth w)) (loading (auth w))) w).

Definition setTokens (t : option AuthTokens) : Async World unit :=
  fun w => (Return tt, set_auth (mkAuthState (user (auth w)) t (loading (auth w))) w).

Definition setLoading (b : bool) : Async World unit :=
  fun w => (Return tt, set_auth (mkAuthState (user (auth w)) (tokens (auth w)) b) w).

Definition is_some {A : Type} (o : option A) : bool :=
  match o with Some _ => true | None => false end.

(** [const isAuthenticated = user !== null && tokens !== null] *)
Definition isAuthenticated (s : AuthState) : bool :=
  is_some (user s) && is_some (tokens s).

(** The value the provider hands to its consumers at a render. *)
Record AuthContextValue : Type := mkAuthContextValue {
  value_user : option User;
  value_tokens : option AuthTokens;
  value_isAuthenticated : bool;
  value_loading : bool
}.

Definition value (s : AuthState) : AuthContextValue :=
  {| value_user := user s;
     value_tokens := tokens s;
     value_isAuthenticated := isAuthenticated s;
     value_loading := loading s |}.

Definition login (username password : string)
           (r_login : Reply LoginResponse) (r_me : Reply UserResponse)
  : Async World unit :=
  finally
    (try_catch
       (setLoading true ;;
        authTokens <- await (authApi.login username password r_login) ;;
        userData <- await (authApi.fetchUser (access_token authTokens) r_me) ;;
        setTokens (Some authTokens) ;;
        setUser (Some userData) ;;
        await (AsyncStorage.setItem STORAGE_KEYS_TOKENS (JSON_stringify authTokens)) ;;
        await (AsyncStorage.setItem STORAGE_KEYS_USER (JSON_stringify userData)) ;;
        console_log "userData")
       (fun error =>
          setTokens None ;;
          setUser None ;;
          throw error))
    (setLoading false).

Definition logout : Async World unit :=
  try_catch
    (setTokens None ;;
     setUser None ;;
     await (AsyncStorage.removeItem STORAGE_KEYS_TOKENS) ;;
     await (AsyncStorage.removeItem STORAGE_KEYS_USER))
    (fun error => console_error "Error during logout:").

Definition restoreSession (r_me : Reply UserResponse) : Async World unit :=
  finally
    (try_catch
       (setLoading true ;;
        storedTokens <- await (AsyncStorage.getItem STORAGE_KEYS_TOKENS) ;;
        storedUser <- await (AsyncStorage.getItem STORAGE_KEYS_USER) ;;
        match storedTokens, storedUser with
        | Some st, Some su =>
            if text_truthy st && text_truthy su then
              parsedTokens <- JSON_parse st ;;
              parsedUser <- JSON_parse su ;;
              setTokens (Some parsedTokens) ;;
              setUser (Some parsedUser) ;;
              try_catch
                (userData <- await (authApi.fetchUser (access_token parsedTokens) r_me) ;;
                 setUser (Some userData) ;;
                 await (AsyncStorage.setItem STORAGE_KEYS_USER (JSON_stringify userData)))
                (fun error =>
                   setTokens None ;;
                   setUser None ;;
                   await (AsyncStorage.removeItem STORAGE_KEYS_TOKENS) ;;
                   await (AsyncStorage.removeItem STORAGE_KEYS_USER))
            else ret tt
        | _, _ => ret tt
        end)
       (fun error =>
          console_error "Error restoring session:" ;;
          setTokens None ;;
          setUser None))
    (setLoading false).

Definition handleTokenExpiration : Async World unit :=
  try_catch
    (setTokens None ;;
     setUser None ;;
     await (AsyncStorage.removeItem STORAGE_KEYS_TOKENS) ;;
     await (AsyncStorage.removeItem STORAGE_KEYS_USER))
    (fun error => console_error "Error handling token expiration:").

End AuthContext.

(** ** Invoice list screen ([src/screens/InvoicesScreen.tsx]) *)

Module InvoicesScreen.

Section Screen.

(** The display form of a record and the per-record conversion
    [convertInvoiceToDisplay] (labels, formatted amount and dates). *)
Variable DisplayInvoice : Type.
Variable convertInvoiceToDisplay : Invoice -> DisplayInvoice.

(** The [useState] cells of the screen that [loadInvoices] writes. *)
Record ScreenState : Type := mkScreenState {
  shown : list DisplayInvoice;
  isLoading : bool;
  isRefreshing : bool;
  error : option string
}.

Definition Screen : Type := (World * ScreenState)%type.

Definition setInvoices (l : list DisplayInvoice) : Async Screen unit :=
  fun s => (Return tt,
            (fst s, mkScreenState l (isLoading (snd s)) (isRefreshing (snd s)) (error (snd s)))).

Definition setIsLoading (b : bool) : Async Screen unit :=
  fun s => (Return tt,
            (fst s, mkScreenState (shown (snd s)) b (isRefreshing (snd s)) (error (snd s)))).

Definition setIsRefreshing (b : bool) : Async Screen unit :=
  fun s => (Return tt,
            (fst s, mkScreenState (shown (snd s)) (isLoading (snd s)) b (error (snd s)))).

Definition setError (e : option string) : Async Screen unit :=
  fun s => (Return tt,
            (fst s, mkScreenState (shown (snd s)) (isLoading (snd s)) (isRefreshing (snd s)) e)).

(** [const { tokens } = useAuth()] *)
Definition useAuth_tokens : Async Screen (option AuthTokens) :=
  fun s => (Return (tokens (auth (fst s))), s).

(** [tokens?.access_token] when it is truthy. *)
Definition truthy_access_token (t : option AuthTokens) : option string :=
  match t with
  | Some tk => if String.eqb (access_token tk) EmptyString then None else Some (access_token tk)
  | None => None
  end.

(** [if (cachedInvoices) setInvoices(cachedInvoices.map(convertInvoiceToDisplay))] *)
Definition showCached (cachedInvoices : option (list Invoice)) (otherwise : Async Screen unit)
  : Async Screen unit :=
  match cachedInvoices with
  | Some cached => setInvoices (map convertInvoiceToDisplay cached)
  | None => otherwise
  end.

(** [loadInvoices(isRefresh)], given what the service answers to the
    request for the records. *)
Definition loadInvoices (isRefresh : bool) (r : Reply (list Invoice))
  : Async Screen unit :=
  tokens <- useAuth_tokens ;;
  match truthy_access_token tokens with
  | None => setIsLoading false
  | Some accessToken =>
      (if isRefresh then setIsRefreshing true else setIsLoading true) ;;
      setError None ;;
      finally
        (try_catch
           ((if negb isRefresh then
               cachedInvoices <- liftW (await invoiceCache.loadInvoiceCache) ;;
               showCached cachedInvoices (ret tt)
             else ret tt) ;;
            apiInvoices <- liftW (await (invoiceApi.fetchInvoices accessToken r)) ;;
            liftW (await (invoiceCache.saveInvoiceCache apiInvoices)) ;;
            setInvoices (map convertInvoiceToDisplay apiInvoices))
           (fun err =>
              liftW (console_error "Error loading invoices:") ;;
              cachedInvoices <- liftW (await invoiceCache.loadInvoiceCache) ;;
              showCached cachedInvoices
                (setError (Some "Unable to load invoices") ;;
                 setInvoices [])))
        (setIsLoading false ;;
         setIsRefreshing false)
  end.

End Screen.

End InvoicesScreen.

(** ** Sample worlds *)

Definition sample_world : World :=
  {| auth := mkAuthState None None false;
     disk := mkDisk None None None;
     clock := 1000;
     faults := [];
     console := [];
     frames := [] |}.

Definition corrupt_world : World :=
  set_disk (mkDisk None None (Some (Malformed "{invoices:[")))
           (set_clock 999999999 sample_world).


Definition sample_tokens : AuthTokens :=
  {| access_token := "access-1"; refresh_token := "refresh-1"; token_type := "bearer" |}.

Definition sample_user : User :=
  {| user_id := JNum 1; email := "admin@clinic.com"; name := "Sarah Johnson";
     role := admin; user_created_at := "2024-01-01T00:00:00Z" |}.

(** A signed-in session whose credentials are in the store. *)
Definition signed_in_world : World :=
  {| auth := mkAuthState (Some sample_user) (Some sample_tokens) false;
     disk := mkDisk (Some (Serialized sample_tokens)) (Some (Serialized sample_user)) None;
     clock := 1000;
     faults := [];
     console := [];
     frames := [] |}.

(** The store fails at its next call. *)
Definition store_down_world : World := set_faults [true] sample_world.

Definition answer {A : Type} (st : Z) (b : option A) : Reply A :=
  Answer (mkResponse st b).

(** ** What the remote answers amount to *)

(** The credential pair a reply to [POST /auth/login] carries, if it is a
    success with a decodable body. *)
Definition accepted (r : Reply LoginResponse) : option AuthTokens :=
  match r with
  | NetworkFailure => None
  | Answer response => if ok response then body response else None
  end.

(** The settlement of the profile fetch on a reply to [GET /auth/me]. *)
Definition profile (r : Reply UserResponse) : Outcome User :=
  match r with
  | NetworkFailure => Throw (mkError "Login failed")
  | Answer response =>
      if ok response then
        match body response with
        | Some u => Return u
        | None => Throw (mkError "Login failed")
        end
      else if authApi.is_token_expired_status (http_status response)
           then Throw (mkError "Token expired")
           else Throw (mkError "Login failed")
  end.

Definition profile_user (r : Reply UserResponse) : option User :=
  match profile r with
  | Return u => Some u
  | Throw _ => None
  end.

(** The message of the error a login rejects with when a remote call
    fails. *)
Definition login_failure_message (r_login : Reply LoginResponse) (r_me : Reply UserResponse)
  : string :=
  match accepted r_login, profile r_me with
  | Some _, Throw e => message e
  | _, _ => "Login failed"
  end.

(** ** Session histories *)

(** The operations that write the session state, each with the answers the
    remote service gives during it. *)
Inductive SessionOp : Type :=
| OpLogin (username password : string)
          (r_login : Reply LoginResponse) (r_me : Reply UserResponse)
| OpLogout
| OpRestoreSession (r_me : Reply UserResponse)
| OpHandleTokenExpiration.

Definition run_op (op : SessionOp) : Async World unit :=
  match op with
  | OpLogin username password r_login r_me => AuthContext.login username password r_login r_me
  | OpLogout => AuthContext.logout
  | OpRestoreSession r_me => AuthContext.restoreSession r_me
  | OpHandleTokenExpiration => AuthContext.handleTokenExpiration
  end.

(** The worlds a process can be in: it starts with an empty session over
    any store; session operations run one after the other; between them the
    clock moves, the store may start or stop failing and the invoice cache
    entry may be rewritten. *)
Inductive reachable : World -> Prop :=
| reachable_start (d : Disk) (t : Z) (f : list bool) :
    reachable (mkWorld (mkAuthState None None false) d t f [] [])
| reachable_op (w : World) (op : SessionOp) :
    reachable w -> reachable (snd (run_op op w))
| reachable_env (w : World) (t : Z) (f : list bool)
                (c : option (text CachedInvoiceData)) :
    reachable w ->
    reachable (set_clock t (set_faults f (set_disk (write CACHE_KEY c (disk w)) w))).

(** A user identity is present only with a credential pair. *)
Definition identity_has_credentials (s : AuthState) : Prop :=
  user s <> None -> tokens s <> None.

(** The list [after] is [before] with further committed states in front,
    every one of which satisfies [P]. *)
Definition committed_during (P : AuthState -> Prop) (before after : list AuthState) : Prop :=
  exists added, after = (added ++ before)%list /\ Forall P added.

(** What holds at every state of a session history. *)
Definition history_ok (w : World) : Prop :=
  identity_has_credentials (auth w) /\
  Forall identity_has_credentials (frames w).

(** A signed-in session with an unexpired cache of the three-record
    scenario. *)
Definition signed_in_cached_world : World :=
  set_disk
    (mkDisk (Some (Serialized sample_tokens)) (Some (Serialized sample_user))
       (Some (Serialized (mkCachedInvoiceData FinancialMetricsCalc.scenario 900 300900))))
    signed_in_world.

(** The world after a successful login from the empty session. *)
Definition after_login_world : World :=
  Eval vm_compute in
    snd (run_op (OpLogin "admin@clinic.com" "admin123"
                   (answer 200 (Some sample_tokens))
                   (answer 200 (Some sample_user)))
                sample_world).

(** The session state and the two credential entries of the store are the
    same in [w'] as in [w]. *)
Definition same_session (w w' : World) : Prop :=
  auth w' = auth w /\
  tokens_item (disk w') = tokens_item (disk w) /\
  user_item (disk w') = user_item (disk w).

From Stdlib Require Import Permutation.

(** ** Further notions on the session and the store *)

(** The next [n] calls of the key-value store succeed. *)
Definition store_works (n : nat) (w : World) : Prop :=
  forallb negb (firstn n (faults w)) = true.

(** A fresh process over the store that [w] leaves: the session state is
    empty again, nothing has been committed or logged yet. *)
Definition restart (t : Z) (f : list bool) (w : World) : World :=
  mkWorld (mkAuthState None None false) (disk w) t f [] [].

(** ** Navigation root ([App.tsx]) *)

Module App.

(** What [AppNavigator] renders. *)
Inductive Root : Type :=
| LoadingIndicator
| MainStack
| AuthStack.

(** [AppNavigator], from the value of the authentication context. *)
Definition AppNavigator (v : AuthContext.AuthContextValue) : Root :=
  if AuthContext.value_loading v && negb (AuthContext.value_isAuthenticated v)
  then LoadingIndicator
  else if AuthContext.value_isAuthenticated v then MainStack else AuthStack.

End App.

(** [!!stored] for what [getItem] gives: neither [null] nor the empty
    string. *)
Definition present {A : Type} (stored : option (text A)) : bool :=
  match stored with
  | Some t => text_truthy t
  | None => false
  end.

(** A fresh process whose store holds the credentials of an earlier
    login. *)
Definition returning_world : World := restart 2000 [] signed_in_world.

(** A fresh process whose stored credential pair does not parse. *)
Definition corrupt_session_world : World :=
  set_disk (mkDisk (Some (Malformed "{access_token:")) (Some (Serialized sample_user)) None)
           returning_world.

Definition renamed_user : User :=
  {| user_id := JNum 1; email := "admin@clinic.com"; name := "Sarah J. Miller";
     role := admin; user_created_at := "2024-01-01T00:00:00Z" |}.

(** ** What the invoice screen has to work with *)

(** The records a reply to [GET /invoices/] carries, if it is a success with
    a decodable body. *)
Definition fetched (r : Reply (list Invoice)) : option (list Invoice) :=
  match r with
  | NetworkFailure => None
  | Answer response => if ok response then body response else None
  end.



(** ** Sums of metrics *)



(** ** Strings *)

(** [s.includes(sub)] *)
Fixpoint includes (s sub : string) : bool :=
  String.prefix sub s ||
  match s with
  | EmptyString => false
  | String _ rest => includes rest sub
  end.

(** ** Audit log API ([src/api/auditApi.ts]) *)

Module auditApi.

(** [fetch], rejecting with an error of the message the platform gives. *)
Definition fetch_or (network_message : string) {A : Type} (r : Reply A)
  : Async World (Response A) :=
  match r with
  | NetworkFailure => throw (mkError network_message)
  | Answer response => ret response
  end.

(** [response.json()], rejecting with an error of the message the platform
    gives. *)
Definition json_or (decode_message : string) {A : Type} (response : Response A)
  : Async World A :=
  match body response with
  | Some a => ret a
  | None => throw (mkError decode_message)
  end.

(** [fetchAuditLogs(accessToken)], given what the service answers to
    [GET /audit/] and the messages of the errors of the platform. *)
Definition fetchAuditLogs {A : Type} (accessToken : string)
           (network_message decode_message : string) (r : Reply A)
  : Async World A :=
  try_catch
    (response <- await (fetch_or network_message r) ;;
     if negb (ok response) then
       (if (http_status response =? 401) || (http_status response =? 403)
        then throw (mkError "Token expired")
        else if http_status response >=? 500
             then throw (mkError "Server error")
             else throw (mkError "Failed to fetch audit logs"))
     else
       (entries <- await (json_or decode_message response) ;;
        ret entries))
    (fun error =>
       console_error "Audit API error:" ;;
       if String.eqb (message error) "Token expired"
          || String.eqb (message error) "Server error"
       then throw error
       else if includes (message error) "fetch"
               || includes (message error) "network"
               || includes (message error) "timeout"
            then throw (mkError "Network error")
            else throw (mkError "Failed to fetch audit logs")).

(** The messages of the errors [fetchAuditLogs] throws. *)
Definition audit_messages : list string :=
  ["Token expired"; "Server error"; "Network error"; "Failed to fetch audit logs"].

End auditApi.

(** ** Audit log screen ([src/screens/AuditLogScreen.tsx]) *)

Module AuditLogScreen.

Section Screen.

(** The entries as the service sends them. *)
Variable AuditLogEntry : Type.

(** The [useState] cells of the screen. *)
Record ScreenState : Type := mkScreenState {
  entries : list AuditLogEntry;
  isLoading : bool;
  error : option string
}.

Definition Screen : Type := (World * ScreenState)%type.

Definition setEntries (l : list AuditLogEntry) : Async Screen unit :=
  fun s => (Return tt, (fst s, mkScreenState l (isLoading (snd s)) (error (snd s)))).

Definition setIsLoading (b : bool) : Async Screen unit :=
  fun s => (Return tt, (fst s, mkScreenState (entries (snd s)) b (error (snd s)))).

Definition setError (e : option string) : Async Screen unit :=
  fun s => (Return tt, (fst s, mkScreenState (entries (snd s)) (isLoading (snd s)) e)).

(** The message shown for an error caught by [loadAuditLogs]. *)
Definition errorText (err : Error) : string :=
  if String.eqb (message err) "Token expired" then
    "Authentication expired. Please log in again."
  else if String.eqb (message err) "Network error" then
    "Unable to connect to server. Please check your network connection."
  else if String.eqb (message err) "Server error" then
    "Server error occurred. Please try again later."
  else if includes (message err) "401" || includes (message err) "403" then
    "You do not have permission to view audit logs."
  else
    "Unable to load audit logs. Please try again.".

(** [loadAuditLogs()], given what the service answers and the messages of
    the errors of the platform. *)
Definition loadAuditLogs (network_message decode_message : string)
           (r : Reply (list AuditLogEntry)) : Async Screen unit :=
  fun s =>
    match InvoicesScreen.truthy_access_token (tokens (auth (fst s))) with
    | None =>
        (setError (Some "Authentication required") ;;
         setIsLoading false) s
    | Some accessToken =>
        (setIsLoading true ;;
         setError None ;;
         finally
           (try_catch
              (apiEntries <- liftW (await (auditApi.fetchAuditLogs accessToken
                                             network_message decode_message r)) ;;
               setEntries apiEntries)
              (fun err =>
                 liftW (console_error "Error loading audit logs:") ;;
                 setError (Some (errorText err))))
           (setIsLoading false)) s
    end.

End Screen.

End AuditLogScreen.

(** ** Login screen ([src/screens/LoginScreen.tsx]) *)

Module LoginScreen.

(** The alerts raised, latest first, each with its title and its message. *)
Definition Ui : Type := list (string * string).

Definition Alert_alert (title text : string) : Async (World * Ui) unit :=
  fun s => (Return tt, (fst s, (title, text) :: snd s)).

(** [handleLoginPress()], for the content of the two input fields, the
    optional [onLogin] callback and the platform's [trim]; the answers of
    the service during the login are inputs. *)
Definition handleLoginPress (trim : string -> string)
           (email password : string)
           (onLogin : option (Async (World * Ui) unit))
           (r_login : Reply LoginResponse) (r_me : Reply UserResponse)
  : Async (World * Ui) unit :=
  let trimmedEmail := trim email in
  let trimmedPassword := trim password in
  try_catch
    (liftW (await (AuthContext.login trimmedEmail trimmedPassword r_login r_me)) ;;
     match onLogin with
     | Some callback => callback
     | None => ret tt
     end)
    (fun error =>
       Alert_alert "Login Failed" "Login failed. Please try again.").

(** Whether a login goes through: both remote calls succeed and so do the
    two writes to the store. *)
Definition login_goes_through (r_login : Reply LoginResponse) (r_me : Reply UserResponse)
           (w : World) : bool :=
  match accepted r_login, profile r_me with
  | Some _, Return _ => forallb negb (firstn 2 (faults w))
  | _, _ => false
  end.

End LoginScreen.

(** ** Profile icon ([src/components/UserProfileIcon.tsx]) *)

Module UserProfileIcon.

(** [s.replace('_', ' ')]: the first underscore, if any, becomes a space. *)
Fixpoint replace_first_underscore (s : string) : string :=
  match s with
  | EmptyString => EmptyString
  | String c rest =>
      if Ascii.eqb c "_"%char then String " "%char rest
      else String c (replace_first_underscore rest)
  end.

Definition formatRole (role : string) : string := replace_first_underscore role.

(** The string of a role. *)
Definition role_name (r : UserRole) : string :=
  match r with
  | admin => "admin"
  | doctor => "doctor"
  | billing_staff => "billing_staff"
  | receptionist => "receptionist"
  end.

(** The component state is whether the modal is visible. *)
Definition setModalVisible (b : bool) : Async (World * bool) unit :=
  fun s => (Return tt, (fst s, b)).

Definition handleLogout : Async (World * bool) unit :=
  try_catch
    (liftW (await AuthContext.logout) ;;
     setModalVisible false)
    (fun error => liftW (console_error "Error during logout:")).

(** Number of underscores of a string. *)
Fixpoint underscores (s : string) : nat :=
  match s with
  | EmptyString => O
  | String c rest => ((if Ascii.eqb c "_"%char then 1 else 0) + underscores rest)%nat
  end.

End UserProfileIcon.

(** ** Invoice list: status and filters ([src/screens/InvoicesScreen.tsx]) *)

Module InvoiceList.

Inductive InvoiceStatus : Type := Paid | Pending | Overdue.

(** The string of a display status. *)
Definition status_label (s : InvoiceStatus) : string :=
  match s with
  | Paid => "Paid"
  | Pending => "Pending"
  | Overdue => "Overdue"
  end.

Record DisplayInvoice : Type := mkDisplayInvoice {
  id : string;
  number : string;
  amount : string;
  patientId : string;
  dueDate : string;
  status : InvoiceStatus
}.

Section Dates.

(** The time value of [new Date(s)], absent for an invalid date (NaN). *)
Variable Date_parse : string -> option Z.

(** [dueDate ? new Date(dueDate) : null] *)
Definition due_of (due_date : option string) : option (option Z) :=
  match due_date with
  | Some d => if String.eqb d EmptyString then None else Some (Date_parse d)
  | None => None
  end.

(** [due && due < now]: a comparison with NaN is false. *)
Definition is_before (due : option (option Z)) (now : Z) : bool :=
  match due with
  | Some (Some t) => t <? now
  | _ => false
  end.

(** [mapApiStatusToDisplay(status, dueDate)] at the time [now]. *)
Definition mapApiStatusToDisplay (now : Z) (api_status : string) (due_date : option string)
  : InvoiceStatus :=
  let due := due_of due_date in
  if String.eqb api_status "paid" then Paid
  else if (String.eqb api_status "unpaid" || String.eqb api_status "pending")
          && is_before due now
       then Overdue
       else if String.eqb api_status "pending" then Pending
            else Pending.

End Dates.

Definition filters : list string := ["All"; "Paid"; "Pending"; "Overdue"].

(** [filteredInvoices] for the active filter. *)
Definition filteredInvoices (activeFilter : string) (invoices : list DisplayInvoice)
  : list DisplayInvoice :=
  filter (fun invoice =>
            if String.eqb activeFilter "All" then true
            else String.eqb (status_label (status invoice)) activeFilter)
         invoices.

End InvoiceList.

(** ** Audit timestamps ([src/utils/auditFormatting.ts]) *)

Module auditFormatting.

(** The decimal text of a natural number, as a template literal writes
    it. *)
Definition number_text (n : Z) : string :=
  NilEmpty.string_of_uint (N.to_uint (Z.to_N n)).

Section Locale.

(** The time value of [new Date(s)], absent for an invalid date (NaN); the
    renderings of the locale: time of day, and date with or without the
    year; and whether a date falls in the year of the current time. *)
Variable Date_parse : string -> option Z.
Variable toLocaleTimeString : option Z -> string.
Variable toLocaleDateString : bool -> option Z -> string.
Variable sameYear : Z -> Z -> bool.

(** [formatTimestamp(timestamp)] at the time [now].  With an invalid date
    every difference is NaN and every comparison false, so the last branch
    is taken.  No call of the body throws, so the [catch] is not entered. *)
Definition formatTimestamp (now : Z) (timestamp : string) : string :=
  match Date_parse timestamp with
  | Some date =>
      let diffMs := now - date in
      let diffMins := diffMs / 60000 in
      let diffHours := diffMs / 3600000 in
      let diffDays := diffMs / 86400000 in
      if diffMins <? 1 then "Just now"
      else if diffMins <? 60 then
        (number_text diffMins ++ " minute"
           ++ (if negb (diffMins =? 1)%Z then "s" else EmptyString) ++ " ago")%string
      else if diffHours <? 24 then
        (number_text diffHours ++ " hour"
           ++ (if negb (diffHours =? 1)%Z then "s" else EmptyString) ++ " ago")%string
      else if diffDays =? 1 then
        ("Yesterday at " ++ toLocaleTimeString (Some date))%string
      else
        (toLocaleDateString (negb (sameYear date now)) (Some date)
           ++ " at " ++ toLocaleTimeString (Some date))%string
  | None =>
      (toLocaleDateString true None ++ " at " ++ toLocaleTimeString None)%string
  end.

End Locale.

End auditFormatting.

(** * Properties *)

(** ** Proof automation *)

(** Unfolding of the combinators and of the primitive operations. *)
Ltac unfold_async :=
  unfold bind, ret, throw, try_catch, finally, liftW, await, Date_now,
    console_log, console_error, JSON_parse, JSON_stringify,
    AsyncStorage.getItem, AsyncStorage.setItem, AsyncStorage.removeItem,
    AsyncStorage.call, fetch, response_json, response_text in *.

(** Case analysis on whatever a [match] or [if] of the goal inspects. *)
Ltac split_match :=
  match goal with
  | |- context [match ?x with _ => _ end] =>
      lazymatch x with
      | context [match _ with _ => _ end] => fail
      | _ => (is_var x; destruct x) || (destruct x eqn:?)
      end
  end.

Ltac run := unfold_async; cbn in *; repeat (split_match; cbn in *).


(** ** Financial metrics *)

Module MetricsFacts.
Import FinancialMetricsCalc.










End MetricsFacts.

(** ** Currency display *)

Module CurrencyFacts.
Import Intl CurrencyFormat.

















End CurrencyFacts.

(** ** Invoice cache *)

Module CacheFacts.
Import invoiceCache.

(** What a read does on a well-formed entry when the store works. *)
Lemma loadInvoiceCache_stored (w : World) (c : CachedInvoiceData) :
  faults w = [] ->
  cache_item (disk w) = Some (Serialized c) ->
  (clock w <= expiresAt c ->
   fst (loadInvoiceCache w) = Return (Some (invoices c)) /\
   disk (snd (loadInvoiceCache w)) = disk w) /\
  (expiresAt c < clock w ->
   fst (loadInvoiceCache w) = Return None /\
   disk (snd (loadInvoiceCache w))
   = mkDisk (tokens_item (disk w)) (user_item (disk w)) None).
Proof.
  intros Hf Hc. destruct w as [a d t f l fr]. cbn in Hf, Hc. subst f.
  unfold loadInvoiceCache. unfold_async. cbn. rewrite Hc. cbn.
  split; intro Ht.
  - destruct (Z.gtb_spec t (expiresAt c)); [lia|]. cbn. auto.
  - destruct (Z.gtb_spec t (expiresAt c)); [|lia]. cbn. auto.
Qed.

(** A read of an absent entry. *)
Lemma loadInvoiceCache_absent (w : World) :
  faults w = [] ->
  cache_item (disk w) = None ->
  fst (loadInvoiceCache w) = Return None /\
  disk (snd (loadInvoiceCache w)) = disk w.
Proof.
  intros Hf Hc. destruct w as [a d t f l fr]. cbn in Hf, Hc. subst f.
  unfold loadInvoiceCache. unfold_async. cbn. rewrite Hc. cbn. auto.
Qed.

Lemma saveInvoiceCache_stores (w : World) (records : list Invoice) :
  faults w = [] ->
  fst (saveInvoiceCache records w) = Return tt /\
  faults (snd (saveInvoiceCache records w)) = [] /\
  disk (snd (saveInvoiceCache records w))
  = mkDisk (tokens_item (disk w)) (user_item (disk w))
      (Some (Serialized (mkCachedInvoiceData records (clock w) (clock w + CACHE_TTL)))).
Proof.
  intros Hf. destruct w as [a d t f l fr]. cbn in Hf. subst f.
  unfold saveInvoiceCache. unfold_async. cbn. auto.
Qed.

(** A read never rejects. *)
Lemma loadInvoiceCache_settles (w : World) :
  exists r, fst (loadInvoiceCache w) = Return r.
Proof.
  destruct w as [a d t f l fr]. unfold loadInvoiceCache.
  run; eauto.
Qed.

(** A read whose first call of the store fails. *)
Lemma loadInvoiceCache_store_down (w : World) (fs : list bool) :
  faults w = true :: fs ->
  fst (loadInvoiceCache w) = Return None /\
  disk (snd (loadInvoiceCache w)) = disk w.
Proof.
  intro Hf. destruct w as [a d t f l fr]. cbn in Hf. subst f.
  unfold loadInvoiceCache. unfold_async. cbn. auto.
Qed.

(** A read of an entry that does not parse, whatever the store does. *)
Lemma loadInvoiceCache_malformed (w : World) (raw : string) :
  cache_item (disk w) = Some (Malformed raw) ->
  fst (loadInvoiceCache w) = Return None /\
  disk (snd (loadInvoiceCache w)) = disk w.
Proof.
  intro Hc. destruct w as [a d t f l fr]. cbn in Hc.
  unfold loadInvoiceCache. unfold_async. cbn.
  destruct f as [|[|] fs]; cbn; rewrite ?Hc; cbn; auto;
    destruct (String.eqb raw EmptyString); cbn; auto.
Qed.

Lemma loadInvoiceCache_keeps_no_fault (w : World) :
  faults w = [] -> faults (snd (loadInvoiceCache w)) = [].
Proof.
  intro Hf. destruct w as [a d t f l fr]. cbn in Hf. subst f.
  unfold loadInvoiceCache. run; reflexivity.
Qed.

(** C3, as the code has it: a write followed by a read at a time [t] gives
    the written collection back, and leaves the entry, exactly when [t] is
    not after the expiry stamp (the time of the write plus five minutes), in
    particular at every [t] before it; a read after the expiry gives no
    cache, removes the entry, and the next read finds it absent.  The store
    is taken to work. *)
Theorem cache_round_trip_until_expiry (w : World) (records : list Invoice) (t : Z) :
  faults w = [] ->
  fst (saveInvoiceCache records w) = Return tt /\
  (t <= clock w + CACHE_TTL ->
   fst (loadInvoiceCache (set_clock t (snd (saveInvoiceCache records w))))
   = Return (Some records) /\
   cache_item (disk (snd (loadInvoiceCache
                            (set_clock t (snd (saveInvoiceCache records w))))))
   = Some (Serialized (mkCachedInvoiceData records (clock w) (clock w + CACHE_TTL)))) /\
  (clock w + CACHE_TTL < t ->
   fst (loadInvoiceCache (set_clock t (snd (saveInvoiceCache records w))))
   = Return None /\
   cache_item (disk (snd (loadInvoiceCache
                            (set_clock t (snd (saveInvoiceCache records w))))))
   = None /\
   forall t' : Z,
     fst (loadInvoiceCache
            (set_clock t' (snd (loadInvoiceCache
                                  (set_clock t (snd (saveInvoiceCache records w)))))))
     = Return None).
Proof.
  intro Hf.
  destruct (saveInvoiceCache_stores w records Hf) as (Hr & Hf1 & Hd1).
  split; [exact Hr|].
  set (w1 := snd (saveInvoiceCache records w)) in *.
  assert (Hc : cache_item (disk (set_clock t w1))
               = Some (Serialized (mkCachedInvoiceData records (clock w)
                                     (clock w + CACHE_TTL))))
    by (cbn; rewrite Hd1; reflexivity).
  destruct (loadInvoiceCache_stored (set_clock t w1) Hf1 Hc) as [Hlive Hstale].
  cbn [clock set_clock expiresAt invoices] in Hlive, Hstale.
  split; intro Ht.
  - destruct (Hlive Ht) as [H1 H2]. split; [exact H1|].
    rewrite H2. exact Hc.
  - destruct (Hstale Ht) as [H1 H2]. split; [exact H1|].
    split; [rewrite H2; reflexivity|].
    intro t'.
    set (w2 := snd (loadInvoiceCache (set_clock t w1))) in *.
    assert (Hf2 : faults (set_clock t' w2) = [])
      by (apply (loadInvoiceCache_keeps_no_fault (set_clock t w1)); exact Hf1).
    apply loadInvoiceCache_absent; [exact Hf2|].
    cbn. rewrite H2. reflexivity.
Qed.

Lemma cache_round_trip_until_expiry_witness :
  faults sample_world = [] /\
  fst (loadInvoiceCache
         (set_clock 300999
            (snd (saveInvoiceCache FinancialMetricsCalc.scenario sample_world))))
  = Return (Some FinancialMetricsCalc.scenario).
Proof.
  split; [reflexivity|].
  apply (@cache_round_trip_until_expiry sample_world FinancialMetricsCalc.scenario
           300999 eq_refl).
  vm_compute. discriminate.
Defined.

(** At the very instant of the expiry stamp the current time is not before
    it, and the read still gives the collection and keeps the entry. *)
Lemma cache_read_at_expiry_instant :
  ~ (clock sample_world + CACHE_TTL < clock sample_world + CACHE_TTL) /\
  fst (loadInvoiceCache
         (set_clock (clock sample_world + CACHE_TTL)
            (snd (saveInvoiceCache FinancialMetricsCalc.scenario sample_world))))
  = Return (Some FinancialMetricsCalc.scenario) /\
  cache_item (disk (snd (loadInvoiceCache
         (set_clock (clock sample_world + CACHE_TTL)
            (snd (saveInvoiceCache FinancialMetricsCalc.scenario sample_world))))))
  <> None.
Proof.
  split; [lia|]. split; [reflexivity|]. vm_compute. discriminate.
Qed.

(** C6, as the code has it: a read never rejects, and gives no cache when
    the store fails; a write whose call of the store fails rejects with the
    failure of the store (nothing is written), and settles normally
    otherwise. *)
Theorem cache_storage_failures (w : World) (records : list Invoice) :
  (exists r, fst (loadInvoiceCache w) = Return r) /\
  match faults w with
  | true :: _ =>
      fst (loadInvoiceCache w) = Return None /\
      disk (snd (loadInvoiceCache w)) = disk w /\
      fst (saveInvoiceCache records w) = Throw StorageError /\
      disk (snd (saveInvoiceCache records w)) = disk w
  | _ => fst (saveInvoiceCache records w) = Return tt
  end.
Proof.
  split; [apply loadInvoiceCache_settles|].
  destruct (faults w) as [|[|] fs] eqn:Hf.
  - apply saveInvoiceCache_stores, Hf.
  - destruct (loadInvoiceCache_store_down w Hf) as [H1 H2].
    repeat split; try assumption;
      destruct w as [a d t f l fr]; cbn in Hf; subst f; reflexivity.
  - destruct w as [a d t f l fr]; cbn in Hf; subst f; reflexivity.
Qed.

(** A write whose call of the store fails rejects. *)
Lemma saveInvoiceCache_rejects_when_store_fails :
  fst (saveInvoiceCache FinancialMetricsCalc.scenario (set_faults [true] sample_world))
  = Throw StorageError.
Proof. reflexivity. Qed.

(** C9: when the entry under the cache key does not parse, a read gives no
    cache without rejecting and leaves the store as it was, so the next read
    meets the same entry and answers the same. *)
Theorem corrupt_cache_entry_is_kept (w : World) (raw : string) :
  cache_item (disk w) = Some (Malformed raw) ->
  fst (loadInvoiceCache w) = Return None /\
  disk (snd (loadInvoiceCache w)) = disk w /\
  fst (loadInvoiceCache (snd (loadInvoiceCache w))) = Return None /\
  cache_item (disk (snd (loadInvoiceCache (snd (loadInvoiceCache w)))))
  = Some (Malformed raw).
Proof.
  intro Hc.
  destruct (loadInvoiceCache_malformed w Hc) as [H1 H2].
  assert (Hc' : cache_item (disk (snd (loadInvoiceCache w))) = Some (Malformed raw))
    by (rewrite H2; exact Hc).
  destruct (loadInvoiceCache_malformed _ Hc') as [H3 H4].
  repeat split; try assumption. rewrite H4. exact Hc'.
Qed.

Lemma corrupt_cache_entry_is_kept_witness :
  cache_item (disk corrupt_world) = Some (Malformed "{invoices:[") /\
  fst (loadInvoiceCache corrupt_world) = Return None /\
  disk (snd (loadInvoiceCache corrupt_world)) = disk corrupt_world.
Proof.
  split; [reflexivity|].
  destruct (@corrupt_cache_entry_is_kept corrupt_world _ eq_refl) as (H1 & H2 & _).
  split; assumption.
Defined.

End CacheFacts.

(** ** Remote calls *)

Module ApiFacts.

(** The authentication call settles as [accepted] says, and touches neither
    the session nor the store. *)
Lemma login_run (username password : string) (r : Reply LoginResponse) (w : World) :
  exists (k : nat) (l : list string),
    authApi.login username password r w
    = (match accepted r with
       | Some d => Return d
       | None => Throw (mkError "Login failed")
       end,
       set_console (l ++ console w) (set_frames (repeat (auth w) k ++ frames w) w)).
Proof.
  destruct w as [a d t f l fr]. unfold authApi.login, accepted.
  destruct r as [|[st [data|]]]; unfold_async; cbn.
  - exists 1%nat, ["Error stack:"; "Error message:"; "Login API Exception:";
                   "Login Request:"; "Login API URL:"]. reflexivity.
  - unfold ok. cbn. destruct ((200 <=? st) && (st <=? 299)); cbn.
    + destruct data as [x y z]. cbn.
      exists 2%nat, ["Login API Success:"; "Login API Response OK:";
                     "Login API Response Status:"; "Login Request:"; "Login API URL:"].
      reflexivity.
    + exists 2%nat, ["Error stack:"; "Error message:"; "Login API Exception:";
                     "Login API Status:"; "Login API Error Response:";
                     "Login API Response OK:"; "Login API Response Status:";
                     "Login Request:"; "Login API URL:"].
      reflexivity.
  - unfold ok. cbn. destruct ((200 <=? st) && (st <=? 299)); cbn.
    + exists 2%nat, ["Error stack:"; "Error message:"; "Login API Exception:";
                     "Login API Response OK:"; "Login API Response Status:";
                     "Login Request:"; "Login API URL:"].
      reflexivity.
    + exists 2%nat, ["Error stack:"; "Error message:"; "Login API Exception:";
                     "Login API Status:"; "Login API Error Response:";
                     "Login API Response OK:"; "Login API Response Status:";
                     "Login Request:"; "Login API URL:"].
      reflexivity.
Qed.

(** The profile fetch settles as [profile] says, and touches neither the
    session nor the store. *)
Lemma fetchUser_run (accessToken : string) (r : Reply UserResponse) (w : World) :
  exists k : nat,
    authApi.fetchUser accessToken r w
    = (profile r, set_frames (repeat (auth w) k ++ frames w) w).
Proof.
  destruct w as [a d t f l fr]. unfold authApi.fetchUser, profile.
  destruct r as [|[st [data|]]]; unfold_async; cbn.
  - exists 1%nat. reflexivity.
  - unfold ok. cbn. destruct ((200 <=? st) && (st <=? 299)); cbn.
    + exists 2%nat. reflexivity.
    + destruct (authApi.is_token_expired_status st); cbn; exists 1%nat; reflexivity.
  - unfold ok. cbn. destruct ((200 <=? st) && (st <=? 299)); cbn.
    + exists 2%nat. reflexivity.
    + destruct (authApi.is_token_expired_status st); cbn; exists 1%nat; reflexivity.
Qed.

End ApiFacts.

(** ** Session manager *)

Module SessionFacts.

(** Replaces the remote calls of the goal by their settlements. *)
Ltac settle_remote :=
  repeat match goal with
    | |- context [authApi.login ?u ?p ?r ?W] =>
        let k := fresh "k" in
        let l := fresh "l" in
        let E := fresh "E" in
        destruct (ApiFacts.login_run u p r W) as (k & l & E);
        rewrite E; clear E; cbn -[authApi.login authApi.fetchUser]
    | |- context [authApi.fetchUser ?tok ?r ?W] =>
        let k := fresh "k" in
        let E := fresh "E" in
        destruct (ApiFacts.fetchUser_run tok r W) as (k & E);
        rewrite E; clear E; cbn -[authApi.login authApi.fetchUser]
    end.

Ltac unfold_session :=
  unfold AuthContext.login, AuthContext.logout, AuthContext.restoreSession,
    AuthContext.handleTokenExpiration,
    AuthContext.setLoading, AuthContext.setTokens, AuthContext.setUser in *.

(** Runs a session operation symbolically down to its remote calls and the
    case analysis the store and the answers call for. *)
Ltac run_session :=
  unfold_session; unfold_async;
  cbn -[authApi.login authApi.fetchUser];
  repeat (first [ progress settle_remote | split_match ];
          cbn -[authApi.login authApi.fetchUser] in * ).

Lemma Forall_repeat_app {A : Type} (P : A -> Prop) (x : A) (k : nat) (l : list A) :
  P x -> Forall P l -> Forall P (repeat x k ++ l).
Proof.
  intros Hx Hl. induction k as [|k IH]; cbn; [exact Hl|].
  constructor; assumption.
Qed.

Lemma committed_refl (P : AuthState -> Prop) (l : list AuthState) :
  committed_during P l l.
Proof. exists []. split; [reflexivity|constructor]. Qed.

Lemma committed_cons (P : AuthState -> Prop) (x : AuthState) (old l : list AuthState) :
  P x -> committed_during P old l -> committed_during P old (x :: l).
Proof.
  intros Hx (added & -> & Ha). exists (x :: added).
  split; [reflexivity|constructor; assumption].
Qed.

Lemma committed_repeat (P : AuthState -> Prop) (x : AuthState) (k : nat)
      (old l : list AuthState) :
  P x -> committed_during P old l -> committed_during P old (repeat x k ++ l).
Proof.
  intros Hx H. induction k as [|k IH]; cbn; [exact H|].
  apply committed_cons; assumption.
Qed.

Ltac committed :=
  repeat first [ apply committed_refl
               | apply committed_cons; [cbn; try reflexivity|]
               | apply committed_repeat; [cbn; try reflexivity|] ].

Ltac longer :=
  repeat (rewrite ?length_app, ?repeat_length; cbn [List.length]); lia.

(** C10: every call of [login] leaves the loading flag false once it has
    settled, whatever the remote service answers and whether or not the
    store fails; the call commits at least one session state while it is in
    flight and every state it commits has the flag set. *)
Theorem login_loading_flag (w : World) (username password : string)
      (r_login : Reply LoginResponse) (r_me : Reply UserResponse) :
  loading (auth (snd (AuthContext.login username password r_login r_me w))) = false /\
  committed_during (fun s => loading s = true)
    (frames w)
    (frames (snd (AuthContext.login username password r_login r_me w))) /\
  (List.length (frames w)
   < List.length (frames (snd (AuthContext.login username password r_login r_me w))))%nat.
Proof.
  destruct w as [[usr tk ld] d t f l fr].
  run_session; (split; [reflexivity|]); (split; [committed|longer]).
Qed.

(** C4, as the code has it: a login whose authentication call or profile
    fetch fails, started from the empty session, rejects, leaves the session
    state as it was and writes nothing to the store.  The error it rejects
    with carries the message "Login failed" in every case but one: a profile
    fetch answered 401 or 403 after an accepted authentication rejects with
    "Token expired". *)
Theorem failed_login_leaves_session_empty (w : World) (username password : string)
      (r_login : Reply LoginResponse) (r_me : Reply UserResponse) :
  auth w = mkAuthState None None false ->
  accepted r_login = None \/ profile_user r_me = None ->
  fst (AuthContext.login username password r_login r_me w)
  = Throw (mkError (login_failure_message r_login r_me)) /\
  auth (snd (AuthContext.login username password r_login r_me w)) = auth w /\
  disk (snd (AuthContext.login username password r_login r_me w)) = disk w /\
  (accepted r_login = None -> login_failure_message r_login r_me = "Login failed") /\
  (login_failure_message r_login r_me = "Login failed" \/
   login_failure_message r_login r_me = "Token expired" /\
   exists response,
     r_me = Answer response /\
     authApi.is_token_expired_status (http_status response) = true).
Proof.
  intros Ha Hfail.
  destruct w as [a d t f l fr]. cbn in Ha. subst a.
  assert (Hmsg : (accepted r_login = None ->
                  login_failure_message r_login r_me = "Login failed") /\
                 (login_failure_message r_login r_me = "Login failed" \/
                  login_failure_message r_login r_me = "Token expired" /\
                  exists response,
                    r_me = Answer response /\
                    authApi.is_token_expired_status (http_status response) = true)).
  { unfold login_failure_message. split.
    - intros ->. reflexivity.
    - destruct (accepted r_login); [|now left].
      unfold profile. destruct r_me as [|response]; [now left|].
      destruct (ok response); [destruct (body response); now left|].
      destruct (authApi.is_token_expired_status (http_status response)) eqn:E;
        [right|now left].
      split; [reflexivity|]. exists response. split; [reflexivity|exact E]. }
  unfold login_failure_message, profile_user in *.
  run_session;
    try (destruct Hfail; discriminate);
    (split; [first [reflexivity | destruct e; reflexivity]|]);
    (split; [reflexivity|]); (split; [reflexivity|]); exact Hmsg.
Qed.

Lemma failed_login_leaves_session_empty_witness :
  auth sample_world = mkAuthState None None false /\
  (accepted (answer 401 None) = None \/ profile_user NetworkFailure = None) /\
  fst (AuthContext.login "admin@clinic.com" "wrong" (answer 401 None) NetworkFailure
         sample_world)
  = Throw (mkError "Login failed") /\
  disk (snd (AuthContext.login "admin@clinic.com" "wrong" (answer 401 None) NetworkFailure
               sample_world))
  = disk sample_world.
Proof.
  split; [reflexivity|]. split; [left; reflexivity|].
  destruct (@failed_login_leaves_session_empty sample_world
              "admin@clinic.com" "wrong" (answer 401 None) NetworkFailure
              eq_refl (or_introl eq_refl))
    as (H1 & _ & H3 & _).
  split; [exact H1|exact H3].
Defined.

(** A login whose profile fetch is answered 401 rejects with another
    message than a login whose authentication call is refused or cannot
    reach the service. *)
Lemma login_failure_signals_differ :
  fst (AuthContext.login "admin@clinic.com" "admin123"
         (answer 200 (Some sample_tokens)) (answer 401 None) sample_world)
  = Throw (mkError "Token expired") /\
  fst (AuthContext.login "admin@clinic.com" "wrong"
         (answer 401 None) (answer 401 None) sample_world)
  = Throw (mkError "Login failed") /\
  fst (AuthContext.login "admin@clinic.com" "admin123"
         NetworkFailure NetworkFailure sample_world)
  = Throw (mkError "Login failed") /\
  mkError "Token expired" <> mkError "Login failed".
Proof. repeat split; try reflexivity. discriminate. Qed.

(** C5, as the code has it: when both remote calls of a login succeed and a
    write to the store fails, the login rejects with the failure of the
    store, and the session state is cleared: user identity and credential
    pair absent, loading flag false.  The user entry is not written; the
    credential entry is written exactly when the failing write is the
    second one. *)
Theorem login_store_failure_clears_session (w : World) (username password : string)
      (r_login : Reply LoginResponse) (r_me : Reply UserResponse)
      (tk : AuthTokens) (usr : User) (fs : list bool) :
  accepted r_login = Some tk ->
  profile r_me = Return usr ->
  faults w = true :: fs \/ faults w = false :: true :: fs ->
  fst (AuthContext.login username password r_login r_me w) = Throw StorageError /\
  auth (snd (AuthContext.login username password r_login r_me w))
  = mkAuthState None None false /\
  user_item (disk (snd (AuthContext.login username password r_login r_me w)))
  = user_item (disk w) /\
  (faults w = true :: fs ->
   disk (snd (AuthContext.login username password r_login r_me w)) = disk w) /\
  (faults w = false :: true :: fs ->
   tokens_item (disk (snd (AuthContext.login username password r_login r_me w)))
   = Some (Serialized tk)).
Proof.
  intros Hl Hp Hf.
  destruct w as [a d t f l fr]. cbn in Hf.
  unfold_session; unfold_async; cbn -[authApi.login authApi.fetchUser].
  settle_remote. rewrite Hl. cbn -[authApi.login authApi.fetchUser].
  settle_remote. rewrite Hp. cbn.
  destruct Hf as [-> | ->]; cbn; repeat split; try reflexivity; discriminate.
Qed.

Lemma login_store_failure_clears_session_witness :
  accepted (answer 200 (Some sample_tokens)) = Some sample_tokens /\
  profile (answer 200 (Some sample_user)) = Return sample_user /\
  (faults store_down_world = [true] \/ faults store_down_world = [false; true]) /\
  fst (AuthContext.login "admin@clinic.com" "admin123"
         (answer 200 (Some sample_tokens)) (answer 200 (Some sample_user))
         store_down_world)
  = Throw StorageError /\
  auth (snd (AuthContext.login "admin@clinic.com" "admin123"
               (answer 200 (Some sample_tokens)) (answer 200 (Some sample_user))
               store_down_world))
  = mkAuthState None None false.
Proof.
  split; [reflexivity|]. split; [reflexivity|]. split; [left; reflexivity|].
  destruct (@login_store_failure_clears_session store_down_world
              "admin@clinic.com" "admin123"
              (answer 200 (Some sample_tokens)) (answer 200 (Some sample_user))
              sample_tokens sample_user [] eq_refl eq_refl (or_introl eq_refl))
    as (H1 & H2 & _).
  split; [exact H1|exact H2].
Defined.

(** Both remote calls succeed and the first write to the store fails: the
    login rejects and the session is not signed in. *)
Lemma login_rejects_on_store_failure :
  accepted (answer 200 (Some sample_tokens)) = Some sample_tokens /\
  profile (answer 200 (Some sample_user)) = Return sample_user /\
  fst (AuthContext.login "admin@clinic.com" "admin123"
         (answer 200 (Some sample_tokens)) (answer 200 (Some sample_user))
         store_down_world)
  = Throw StorageError /\
  AuthContext.isAuthenticated
    (auth (snd (AuthContext.login "admin@clinic.com" "admin123"
                  (answer 200 (Some sample_tokens)) (answer 200 (Some sample_user))
                  store_down_world)))
  = false.
Proof. repeat split; reflexivity. Qed.

Ltac credentials :=
  first [ assumption
        | unfold identity_has_credentials in *; cbn in *; congruence ].

Ltac history :=
  split;
  [ credentials
  | repeat first [ assumption
                 | apply Forall_cons; [credentials|]
                 | apply Forall_repeat_app; [credentials|] ] ].

Lemma login_history_ok (w : World) (username password : string)
      (r_login : Reply LoginResponse) (r_me : Reply UserResponse) :
  history_ok w ->
  history_ok (snd (AuthContext.login username password r_login r_me w)).
Proof.
  destruct w as [[usr tk ld] d t f l fr]. unfold history_ok. cbn.
  intros [Ha Hfr].
  run_session; history.
Qed.

Lemma logout_history_ok (w : World) :
  history_ok w -> history_ok (snd (AuthContext.logout w)).
Proof.
  destruct w as [[usr tk ld] d t f l fr]. unfold history_ok. cbn.
  intros [Ha Hfr].
  run_session; history.
Qed.

Lemma handleTokenExpiration_history_ok (w : World) :
  history_ok w -> history_ok (snd (AuthContext.handleTokenExpiration w)).
Proof.
  destruct w as [[usr tk ld] d t f l fr]. unfold history_ok. cbn.
  intros [Ha Hfr].
  run_session; history.
Qed.

Lemma restoreSession_history_ok (w : World) (r_me : Reply UserResponse) :
  history_ok w -> history_ok (snd (AuthContext.restoreSession r_me w)).
Proof.
  destruct w as [[usr tk ld] d t f l fr]. unfold history_ok. cbn.
  intros [Ha Hfr].
  run_session; history.
Qed.

Lemma reachable_history_ok (w : World) : reachable w -> history_ok w.
Proof.
  induction 1 as [d t f | w op _ IH | w t f c _ IH].
  - split; [intro H; now elim H|constructor].
  - destruct op; cbn [run_op].
    + now apply login_history_ok.
    + now apply logout_history_ok.
    + now apply restoreSession_history_ok.
    + now apply handleTokenExpiration_history_ok.
  - exact IH.
Qed.

(** C7: in every session state of a history of logins, logouts, session
    restorations and credential expiries, the settled ones and those
    committed while an operation is in flight, the authenticated flag the
    provider hands out is the conjunction of "user identity present" and
    "credential pair present", and a user identity is never present while
    the credential pair is absent. *)
Theorem authenticated_flag_is_derived (w : World) (s : AuthState) :
  reachable w ->
  In s (auth w :: frames w) ->
  AuthContext.value_isAuthenticated (AuthContext.value s)
  = AuthContext.is_some (user s) && AuthContext.is_some (tokens s) /\
  (user s <> None -> tokens s <> None) /\
  (AuthContext.value_isAuthenticated (AuthContext.value s) = true <->
   user s <> None /\ tokens s <> None).
Proof.
  intros Hr Hin.
  destruct (reachable_history_ok Hr) as [Ha Hfr].
  split; [reflexivity|]. split.
  - destruct Hin as [<- | Hin]; [exact Ha|].
    rewrite Forall_forall in Hfr. exact (Hfr s Hin).
  - cbn. unfold AuthContext.isAuthenticated.
    destruct (user s), (tokens s); cbn; split;
      try discriminate; try (intros [H1 H2]; congruence);
      try (intros _; split; discriminate); auto.
Qed.

Lemma after_login_world_run :
  snd (run_op (OpLogin "admin@clinic.com" "admin123"
                 (answer 200 (Some sample_tokens))
                 (answer 200 (Some sample_user)))
              sample_world)
  = after_login_world.
Proof. vm_compute. reflexivity. Qed.

Lemma authenticated_flag_is_derived_witness :
  reachable after_login_world /\
  In (auth after_login_world) (auth after_login_world :: frames after_login_world) /\
  (user (auth after_login_world) <> None -> tokens (auth after_login_world) <> None).
Proof.
  assert (Hr : reachable after_login_world)
    by (rewrite <- after_login_world_run; apply reachable_op, reachable_start).
  assert (Hin : In (auth after_login_world)
                   (auth after_login_world :: frames after_login_world))
    by (vm_compute; left; reflexivity).
  split; [exact Hr|]. split; [exact Hin|].
  exact (proj1 (proj2 (@authenticated_flag_is_derived after_login_world
                         (auth after_login_world) Hr Hin))).
Defined.

End SessionFacts.

(** ** Invoice list screen *)

Module ScreenFacts.
Import InvoicesScreen.

(** The request for the records signals an unauthorized or forbidden answer
    by its own message, any other failure by the generic one. *)
Lemma fetchInvoices_run (accessToken : string) (r : Reply (list Invoice)) (w : World) :
  exists k : nat,
    invoiceApi.fetchInvoices accessToken r w
    = (match r with
       | NetworkFailure => Throw (mkError "Failed to fetch invoices")
       | Answer response =>
           if ok response then
             match body response with
             | Some invs => Return invs
             | None => Throw (mkError "Failed to fetch invoices")
             end
           else if (http_status response =? 401) || (http_status response =? 403)
                then Throw (mkError "Token expired")
                else Throw (mkError "Failed to fetch invoices")
       end,
       set_frames (repeat (auth w) k ++ frames w) w).
Proof.
  destruct w as [a d t f l fr]. unfold invoiceApi.fetchInvoices.
  destruct r as [|[st [data|]]]; unfold_async; cbn.
  - exists 1%nat. reflexivity.
  - unfold ok. cbn. destruct ((200 <=? st) && (st <=? 299)); cbn.
    + exists 2%nat. reflexivity.
    + destruct ((st =? 401) || (st =? 403)); cbn; exists 1%nat; reflexivity.
  - unfold ok. cbn. destruct ((200 <=? st) && (st <=? 299)); cbn.
    + exists 2%nat. reflexivity.
    + destruct ((st =? 401) || (st =? 403)); cbn; exists 1%nat; reflexivity.
Qed.

Lemma loadInvoiceCache_same_session (w : World) :
  same_session w (snd (invoiceCache.loadInvoiceCache w)).
Proof.
  destruct w as [a d t f l fr]. unfold same_session, invoiceCache.loadInvoiceCache.
  run; auto.
Qed.

Lemma saveInvoiceCache_same_session (invs : list Invoice) (w : World) :
  same_session w (snd (invoiceCache.saveInvoiceCache invs w)).
Proof.
  destruct w as [a d t f l fr]. unfold same_session, invoiceCache.saveInvoiceCache.
  run; auto.
Qed.

Lemma fetchInvoices_same_session (accessToken : string) (r : Reply (list Invoice))
      (w : World) :
  same_session w (snd (invoiceApi.fetchInvoices accessToken r w)).
Proof.
  destruct (fetchInvoices_run accessToken r w) as (k & ->).
  destruct w as [a d t f l fr]. unfold same_session. cbn. auto.
Qed.

(** Replaces a call of the cache or of the service by its settlement, with
    what is known of the world it leaves. *)
Ltac settle_call :=
  match goal with
  | |- context [invoiceCache.loadInvoiceCache ?W] =>
      let H := fresh "H" in
      pose proof (loadInvoiceCache_same_session W) as H;
      destruct (invoiceCache.loadInvoiceCache W) as [[[?|]|?] ?]
  | |- context [invoiceCache.saveInvoiceCache ?i ?W] =>
      let H := fresh "H" in
      pose proof (saveInvoiceCache_same_session i W) as H;
      destruct (invoiceCache.saveInvoiceCache i W) as [[?|?] ?]
  | |- context [invoiceApi.fetchInvoices ?tok ?r ?W] =>
      let H := fresh "H" in
      pose proof (fetchInvoices_same_session tok r W) as H;
      destruct (invoiceApi.fetchInvoices tok r W) as [[?|?] ?]
  end.

Ltac screen_cbn :=
  cbn -[invoiceCache.loadInvoiceCache invoiceCache.saveInvoiceCache
        invoiceApi.fetchInvoices] in *.

(** Whatever the service answers, [loadInvoices] leaves the session state
    and the credential entries of the store as they were. *)
Lemma loadInvoices_same_session
      (DisplayInvoice : Type) (convert : Invoice -> DisplayInvoice)
      (isRefresh : bool) (r : Reply (list Invoice))
      (s : World * ScreenState DisplayInvoice) :
  same_session (fst s) (fst (snd (loadInvoices convert isRefresh r s))).
Proof.
  destruct s as [[a d t f l fr] sc].
  unfold loadInvoices, useAuth_tokens, showCached, setInvoices, setIsLoading,
    setIsRefreshing, setError.
  unfold_async. screen_cbn.
  destruct (truthy_access_token (tokens a)) as [tok|]; screen_cbn;
    [|unfold same_session; cbn; auto].
  destruct isRefresh; screen_cbn;
    repeat (settle_call; screen_cbn);
    unfold same_session in *; cbn in *; intuition congruence.
Qed.

(** An answer 401 or 403 and an answer 500 take [loadInvoices] to the same
    state, by the same path. *)
Lemma loadInvoices_unauthorized_as_server_error
      (DisplayInvoice : Type) (convert : Invoice -> DisplayInvoice)
      (isRefresh : bool) (b b' : option (list Invoice))
      (s : World * ScreenState DisplayInvoice) :
  loadInvoices convert isRefresh (answer 401 b) s
  = loadInvoices convert isRefresh (answer 500 b') s /\
  loadInvoices convert isRefresh (answer 403 b) s
  = loadInvoices convert isRefresh (answer 500 b') s.
Proof.
  destruct s as [[a d t f l fr] sc].
  unfold loadInvoices, useAuth_tokens, showCached, setInvoices, setIsLoading,
    setIsRefreshing, setError, invoiceApi.fetchInvoices, answer.
  unfold_async. cbn -[invoiceCache.loadInvoiceCache].
  destruct (truthy_access_token (tokens a)) as [tok|]; cbn -[invoiceCache.loadInvoiceCache];
    [|split; reflexivity].
  destruct isRefresh; cbn -[invoiceCache.loadInvoiceCache]; [split; reflexivity|].
  match goal with
  | |- context [invoiceCache.loadInvoiceCache ?W] =>
      destruct (invoiceCache.loadInvoiceCache W) as [[[?|]|?] ?]
  end; cbn -[invoiceCache.loadInvoiceCache]; split; reflexivity.
Qed.

(** C2, on the code: the request for the records does signal an answer 401
    or 403 by its own message, "Token expired"; [loadInvoices] then handles
    it as any other failure.  Whatever the state, an answer 401 or 403
    takes [loadInvoices] where an answer 500 takes it, and [loadInvoices]
    never changes the session state nor the credential entries of the
    store.  In a signed-in session an answer 401 thus leaves the session
    authenticated and both credential entries in place, and the screen ends
    with the error "Unable to load invoices" when no cache is held, with
    the cached records and no error when one is. *)
Theorem loadInvoices_unauthorized_is_generic
        (DisplayInvoice : Type) (convert : Invoice -> DisplayInvoice) :
  (forall (accessToken : string) (b : option (list Invoice)) (w : World),
      fst (invoiceApi.fetchInvoices accessToken (answer 401 b) w)
      = Throw (mkError "Token expired") /\
      fst (invoiceApi.fetchInvoices accessToken (answer 403 b) w)
      = Throw (mkError "Token expired") /\
      fst (invoiceApi.fetchInvoices accessToken (answer 500 b) w)
      = Throw (mkError "Failed to fetch invoices")) /\
  (forall (isRefresh : bool) (b b' : option (list Invoice))
          (s : World * ScreenState DisplayInvoice),
      loadInvoices convert isRefresh (answer 401 b) s
      = loadInvoices convert isRefresh (answer 500 b') s /\
      loadInvoices convert isRefresh (answer 403 b) s
      = loadInvoices convert isRefresh (answer 500 b') s) /\
  (forall (isRefresh : bool) (r : Reply (list Invoice))
          (s : World * ScreenState DisplayInvoice),
      same_session (fst s) (fst (snd (loadInvoices convert isRefresh r s)))) /\
  AuthContext.isAuthenticated
    (auth (fst (snd (loadInvoices convert false (answer 401 None)
                       (signed_in_world, mkScreenState [] true false None)))))
  = true /\
  disk (fst (snd (loadInvoices convert false (answer 401 None)
                    (signed_in_world, mkScreenState [] true false None))))
  = disk signed_in_world /\
  snd (snd (loadInvoices convert false (answer 401 None)
              (signed_in_world, mkScreenState [] true false None)))
  = mkScreenState [] false false (Some "Unable to load invoices") /\
  AuthContext.isAuthenticated
    (auth (fst (snd (loadInvoices convert true (answer 401 None)
                       (signed_in_cached_world, mkScreenState [] false false None)))))
  = true /\
  snd (snd (loadInvoices convert true (answer 401 None)
              (signed_in_cached_world, mkScreenState [] false false None)))
  = mkScreenState (map convert FinancialMetricsCalc.scenario) false false None.
Proof.
  split.
  { intros accessToken b w.
    repeat apply conj;
      match goal with
      | |- fst (invoiceApi.fetchInvoices ?tok ?r ?w) = _ =>
          destruct (fetchInvoices_run tok r w) as (k & ->); reflexivity
      end. }
  split; [intros; apply loadInvoices_unauthorized_as_server_error|].
  split; [intros; apply loadInvoices_same_session|].
  repeat apply conj; vm_compute; reflexivity.
Qed.

End ScreenFacts.

(** ** Session manager: further properties *)

Module SessionMore.
Import SessionFacts.

Lemma logout_run (w : World) :
  fst (AuthContext.logout w) = Return tt /\
  user (auth (snd (AuthContext.logout w))) = None /\
  tokens (auth (snd (AuthContext.logout w))) = None /\
  loading (auth (snd (AuthContext.logout w))) = loading (auth w) /\
  cache_item (disk (snd (AuthContext.logout w))) = cache_item (disk w) /\
  match faults w with
  | true :: _ => disk (snd (AuthContext.logout w)) = disk w
  | false :: true :: _ =>
      tokens_item (disk (snd (AuthContext.logout w))) = None /\
      user_item (disk (snd (AuthContext.logout w))) = user_item (disk w)
  | _ =>
      tokens_item (disk (snd (AuthContext.logout w))) = None /\
      user_item (disk (snd (AuthContext.logout w))) = None
  end.
Proof.
  destruct w as [[usr tk ld] d t f l fr].
  destruct f as [|[|] [|[|] f]]; cbn; repeat apply conj; reflexivity.
Qed.

Lemma handleTokenExpiration_run (w : World) :
  fst (AuthContext.handleTokenExpiration w) = fst (AuthContext.logout w) /\
  auth (snd (AuthContext.handleTokenExpiration w)) = auth (snd (AuthContext.logout w)) /\
  disk (snd (AuthContext.handleTokenExpiration w)) = disk (snd (AuthContext.logout w)) /\
  frames (snd (AuthContext.handleTokenExpiration w)) = frames (snd (AuthContext.logout w)).
Proof.
  destruct w as [[usr tk ld] d t f l fr].
  destruct f as [|[|] [|[|] f]]; cbn; repeat apply conj; reflexivity.
Qed.

Lemma login_success_run (w : World) (username password : string)
      (r_login : Reply LoginResponse) (r_me : Reply UserResponse)
      (tk : AuthTokens) (usr : User) :
  accepted r_login = Some tk ->
  profile r_me = Return usr ->
  store_works 2 w ->
  fst (AuthContext.login username password r_login r_me w) = Return tt /\
  auth (snd (AuthContext.login username password r_login r_me w))
  = mkAuthState (Some usr) (Some tk) false /\
  disk (snd (AuthContext.login username password r_login r_me w))
  = mkDisk (Some (Serialized tk)) (Some (Serialized usr)) (cache_item (disk w)).
Proof.
  intros Hl Hp Hs.
  destruct w as [a d t f l fr]. unfold store_works in Hs. cbn in Hs.
  unfold_session; unfold_async; cbn -[authApi.login authApi.fetchUser].
  settle_remote. rewrite Hl. cbn -[authApi.login authApi.fetchUser].
  settle_remote. rewrite Hp. cbn.
  destruct f as [|[|] [|[|] f]]; cbn in *; try discriminate Hs;
    repeat apply conj; reflexivity.
Qed.

Lemma restoreSession_settles_run (w : World) (r_me : Reply UserResponse) :
  fst (AuthContext.restoreSession r_me w) = Return tt /\
  loading (auth (snd (AuthContext.restoreSession r_me w))) = false.
Proof.
  destruct w as [[usr tk ld] d t f l fr].
  run_session; split; reflexivity.
Qed.

Lemma restoreSession_revalidated_run (w : World) (r_me : Reply UserResponse)
      (tk : AuthTokens) (stored fetched : User) :
  tokens_item (disk w) = Some (Serialized tk) ->
  user_item (disk w) = Some (Serialized stored) ->
  profile r_me = Return fetched ->
  store_works 3 w ->
  auth (snd (AuthContext.restoreSession r_me w))
  = mkAuthState (Some fetched) (Some tk) false /\
  disk (snd (AuthContext.restoreSession r_me w))
  = mkDisk (Some (Serialized tk)) (Some (Serialized fetched)) (cache_item (disk w)) /\
  In (mkAuthState (Some stored) (Some tk) true)
     (frames (snd (AuthContext.restoreSession r_me w))).
Proof.
  intros Ht Hu Hp Hs.
  destruct w as [[usr0 tk0 ld] [ti ui ci] t f l fr].
  unfold store_works in Hs. cbn in Ht, Hu, Hs. subst ti ui.
  unfold_session; unfold_async.
  destruct f as [|[|] [|[|] [|[|] f]]]; cbn in *; try discriminate Hs;
    cbn -[authApi.fetchUser]; settle_remote; rewrite Hp; cbn;
    (repeat apply conj; [reflexivity|reflexivity|]);
    right; apply in_or_app; right; left; reflexivity.
Qed.

(** X1: [logout] never rejects and always ends with user identity and
    credential pair absent, the loading flag and the invoice cache entry
    untouched.  When the store works both credential entries are removed;
    when the first removal fails none is; when only the second fails the
    user entry stays. *)
Theorem logout_always_clears (w : World) :
  fst (AuthContext.logout w) = Return tt /\
  user (auth (snd (AuthContext.logout w))) = None /\
  tokens (auth (snd (AuthContext.logout w))) = None /\
  loading (auth (snd (AuthContext.logout w))) = loading (auth w) /\
  cache_item (disk (snd (AuthContext.logout w))) = cache_item (disk w) /\
  match faults w with
  | true :: _ => disk (snd (AuthContext.logout w)) = disk w
  | false :: true :: _ =>
      tokens_item (disk (snd (AuthContext.logout w))) = None /\
      user_item (disk (snd (AuthContext.logout w))) = user_item (disk w)
  | _ =>
      tokens_item (disk (snd (AuthContext.logout w))) = None /\
      user_item (disk (snd (AuthContext.logout w))) = None
  end.
Proof. exact (logout_run w). Qed.

(** X2: the credential-expiry handler does what [logout] does: same
    settlement, same session state, same store, same committed states. *)
Theorem handleTokenExpiration_as_logout (w : World) :
  fst (AuthContext.handleTokenExpiration w) = fst (AuthContext.logout w) /\
  auth (snd (AuthContext.handleTokenExpiration w)) = auth (snd (AuthContext.logout w)) /\
  disk (snd (AuthContext.handleTokenExpiration w)) = disk (snd (AuthContext.logout w)) /\
  frames (snd (AuthContext.handleTokenExpiration w)) = frames (snd (AuthContext.logout w)).
Proof. exact (handleTokenExpiration_run w). Qed.

(** X3: when the authentication call and the profile fetch succeed and the
    two writes to the store succeed, [login] settles normally with the
    credential pair and the user identity set, the loading flag false, and
    both entries written to the store (the cache entry untouched). *)
Theorem login_success_signs_in (w : World) (username password : string)
      (r_login : Reply LoginResponse) (r_me : Reply UserResponse)
      (tk : AuthTokens) (usr : User) :
  accepted r_login = Some tk ->
  profile r_me = Return usr ->
  store_works 2 w ->
  fst (AuthContext.login username password r_login r_me w) = Return tt /\
  auth (snd (AuthContext.login username password r_login r_me w))
  = mkAuthState (Some usr) (Some tk) false /\
  disk (snd (AuthContext.login username password r_login r_me w))
  = mkDisk (Some (Serialized tk)) (Some (Serialized usr)) (cache_item (disk w)).
Proof. exact (@login_success_run w username password r_login r_me tk usr). Qed.

Lemma login_success_signs_in_witness :
  accepted (answer 200 (Some sample_tokens)) = Some sample_tokens /\
  profile (answer 200 (Some sample_user)) = Return sample_user /\
  store_works 2 sample_world /\
  auth (snd (AuthContext.login "admin@clinic.com" "admin123"
               (answer 200 (Some sample_tokens)) (answer 200 (Some sample_user))
               sample_world))
  = mkAuthState (Some sample_user) (Some sample_tokens) false.
Proof.
  split; [reflexivity|]. split; [reflexivity|]. split; [reflexivity|].
  exact (proj1 (proj2 (@login_success_signs_in sample_world
                         "admin@clinic.com" "admin123"
                         (answer 200 (Some sample_tokens))
                         (answer 200 (Some sample_user))
                         sample_tokens sample_user eq_refl eq_refl eq_refl))).
Defined.

(** X4: [restoreSession] never rejects and always ends with the loading flag
    false, whatever the store holds, whether or not it fails, and whatever
    the service answers. *)
Theorem restoreSession_settles (w : World) (r_me : Reply UserResponse) :
  fst (AuthContext.restoreSession r_me w) = Return tt /\
  loading (auth (snd (AuthContext.restoreSession r_me w))) = false.
Proof. exact (restoreSession_settles_run w r_me). Qed.

(** X5: when one of the two credential entries is absent or empty (and the
    two reads succeed), [restoreSession] leaves user identity, credential
    pair and store as they are. *)
Theorem restoreSession_without_credentials (w : World) (r_me : Reply UserResponse) :
  store_works 2 w ->
  present (tokens_item (disk w)) && present (user_item (disk w)) = false ->
  auth (snd (AuthContext.restoreSession r_me w))
  = mkAuthState (user (auth w)) (tokens (auth w)) false /\
  disk (snd (AuthContext.restoreSession r_me w)) = disk w.
Proof.
  intros Hs Hp.
  destruct w as [[usr tk ld] [ti ui ci] t f l fr].
  unfold store_works in Hs. cbn in Hs, Hp.
  unfold_session; unfold_async.
  destruct f as [|[|] [|[|] f]]; cbn in *; try discriminate Hs;
    destruct ti as [ti|], ui as [ui|]; cbn in *; try (split; reflexivity);
    rewrite Hp; cbn; split; reflexivity.
Qed.

Lemma restoreSession_without_credentials_witness :
  store_works 2 sample_world /\
  present (tokens_item (disk sample_world)) && present (user_item (disk sample_world))
  = false /\
  auth (snd (AuthContext.restoreSession NetworkFailure sample_world))
  = mkAuthState None None false.
Proof.
  split; [reflexivity|]. split; [reflexivity|].
  exact (proj1 (@restoreSession_without_credentials sample_world NetworkFailure
                  eq_refl eq_refl)).
Defined.

(** X6: when both credential entries are stored and the profile fetch with
    the stored access token succeeds, [restoreSession] ends authenticated
    with the stored credential pair and the fetched profile, and the fetched
    profile replaces the stored one; while the fetch is in flight the
    session is committed with the stored identity and the loading flag
    set. *)
Theorem restoreSession_revalidated (w : World) (r_me : Reply UserResponse)
      (tk : AuthTokens) (stored fetched : User) :
  tokens_item (disk w) = Some (Serialized tk) ->
  user_item (disk w) = Some (Serialized stored) ->
  profile r_me = Return fetched ->
  store_works 3 w ->
  auth (snd (AuthContext.restoreSession r_me w))
  = mkAuthState (Some fetched) (Some tk) false /\
  disk (snd (AuthContext.restoreSession r_me w))
  = mkDisk (Some (Serialized tk)) (Some (Serialized fetched)) (cache_item (disk w)) /\
  In (mkAuthState (Some stored) (Some tk) true)
     (frames (snd (AuthContext.restoreSession r_me w))).
Proof. exact (@restoreSession_revalidated_run w r_me tk stored fetched). Qed.

(** X7: when both credential entries are stored and the profile fetch
    fails, for whatever reason, [restoreSession] ends with the session empty
    and removes both credential entries (the store working). *)
Theorem restoreSession_rejected (w : World) (r_me : Reply UserResponse)
      (tk : AuthTokens) (stored : User) (e : Error) :
  tokens_item (disk w) = Some (Serialized tk) ->
  user_item (disk w) = Some (Serialized stored) ->
  profile r_me = Throw e ->
  store_works 4 w ->
  auth (snd (AuthContext.restoreSession r_me w)) = mkAuthState None None false /\
  disk (snd (AuthContext.restoreSession r_me w))
  = mkDisk None None (cache_item (disk w)).
Proof.
  intros Ht Hu Hp Hs.
  destruct w as [[usr0 tk0 ld] [ti ui ci] t f l fr].
  unfold store_works in Hs. cbn in Ht, Hu, Hs. subst ti ui.
  unfold_session; unfold_async.
  destruct f as [|[|] [|[|] [|[|] [|[|] f]]]]; cbn in *; try discriminate Hs;
    cbn -[authApi.fetchUser]; settle_remote; rewrite Hp; cbn;
    split; reflexivity.
Qed.

(** X8: when both credential entries are present and one of them does not
    parse, [restoreSession] ends with the session empty and leaves both
    entries in the store, the one that does not parse included. *)
Theorem restoreSession_corrupt_entry_stays (w : World) (r_me : Reply UserResponse) :
  store_works 2 w ->
  present (tokens_item (disk w)) && present (user_item (disk w)) = true ->
  (exists raw, tokens_item (disk w) = Some (Malformed raw)) \/
  (exists raw, user_item (disk w) = Some (Malformed raw)) ->
  auth (snd (AuthContext.restoreSession r_me w)) = mkAuthState None None false /\
  disk (snd (AuthContext.restoreSession r_me w)) = disk w.
Proof.
  intros Hs Hp Hm.
  destruct w as [[usr0 tk0 ld] [ti ui ci] t f l fr].
  unfold store_works in Hs. cbn in Hs, Hp, Hm.
  unfold_session; unfold_async.
  destruct f as [|[|] [|[|] f]]; cbn in *; try discriminate Hs;
    destruct ti as [[tk|rt]|], ui as [[us|ru]|]; cbn in *; try discriminate Hp;
    try (destruct Hm as [[raw Hm]|[raw Hm]]; discriminate Hm);
    try (apply andb_prop in Hp; destruct Hp as [Hp1 Hp2]);
    try discriminate;
    rewrite ?Hp, ?Hp1, ?Hp2; cbn; split; reflexivity.
Qed.

Lemma restoreSession_revalidated_witness :
  tokens_item (disk returning_world) = Some (Serialized sample_tokens) /\
  user_item (disk returning_world) = Some (Serialized sample_user) /\
  profile (answer 200 (Some renamed_user)) = Return renamed_user /\
  store_works 3 returning_world /\
  auth (snd (AuthContext.restoreSession (answer 200 (Some renamed_user)) returning_world))
  = mkAuthState (Some renamed_user) (Some sample_tokens) false.
Proof.
  repeat (split; [reflexivity|]).
  exact (proj1 (@restoreSession_revalidated returning_world
                  (answer 200 (Some renamed_user)) sample_tokens sample_user
                  renamed_user eq_refl eq_refl eq_refl eq_refl)).
Defined.

Lemma restoreSession_rejected_witness :
  tokens_item (disk returning_world) = Some (Serialized sample_tokens) /\
  user_item (disk returning_world) = Some (Serialized sample_user) /\
  profile (answer 401 None) = Throw (mkError "Token expired") /\
  store_works 4 returning_world /\
  disk (snd (AuthContext.restoreSession (answer 401 None) returning_world))
  = mkDisk None None None.
Proof.
  repeat (split; [reflexivity|]).
  exact (proj2 (@restoreSession_rejected returning_world (answer 401 None)
                  sample_tokens sample_user (mkError "Token expired")
                  eq_refl eq_refl eq_refl eq_refl)).
Defined.

Lemma restoreSession_corrupt_entry_stays_witness :
  store_works 2 corrupt_session_world /\
  present (tokens_item (disk corrupt_session_world))
  && present (user_item (disk corrupt_session_world)) = true /\
  disk (snd (AuthContext.restoreSession NetworkFailure corrupt_session_world))
  = disk corrupt_session_world.
Proof.
  split; [reflexivity|]. split; [reflexivity|].
  refine (proj2 (@restoreSession_corrupt_entry_stays corrupt_session_world
                   NetworkFailure eq_refl eq_refl _)).
  left. exists "{access_token:". reflexivity.
Defined.

(** X9: a login that succeeds, followed by a restoration in a fresh process
    over the same store, ends authenticated with the credential pair of the
    login and the profile the service then returns (the store working, the
    profile fetch succeeding). *)
Theorem session_round_trip (w : World) (username password : string)
      (r_login : Reply LoginResponse) (r_me r_again : Reply UserResponse)
      (tk : AuthTokens) (usr again : User) (t : Z) :
  accepted r_login = Some tk ->
  profile r_me = Return usr ->
  store_works 2 w ->
  profile r_again = Return again ->
  auth (snd (AuthContext.restoreSession r_again
               (restart t []
                  (snd (AuthContext.login username password r_login r_me w)))))
  = mkAuthState (Some again) (Some tk) false.
Proof.
  intros Hl Hp Hs Ha.
  destruct (@login_success_run w username password r_login r_me tk usr Hl Hp Hs)
    as (_ & _ & Hd).
  apply (@restoreSession_revalidated_run _ r_again tk usr again); try assumption.
  - cbn. rewrite Hd. reflexivity.
  - cbn. rewrite Hd. reflexivity.
  - reflexivity.
Qed.

Lemma session_round_trip_witness :
  accepted (answer 200 (Some sample_tokens)) = Some sample_tokens /\
  profile (answer 200 (Some sample_user)) = Return sample_user /\
  store_works 2 sample_world /\
  profile (answer 200 (Some renamed_user)) = Return renamed_user /\
  auth (snd (AuthContext.restoreSession (answer 200 (Some renamed_user))
               (restart 5000 []
                  (snd (AuthContext.login "admin@clinic.com" "admin123"
                          (answer 200 (Some sample_tokens))
                          (answer 200 (Some sample_user)) sample_world)))))
  = mkAuthState (Some renamed_user) (Some sample_tokens) false.
Proof.
  repeat (split; [reflexivity|]).
  exact (@session_round_trip sample_world "admin@clinic.com" "admin123"
           (answer 200 (Some sample_tokens)) (answer 200 (Some sample_user))
           (answer 200 (Some renamed_user)) sample_tokens sample_user renamed_user
           5000 eq_refl eq_refl eq_refl eq_refl).
Defined.

Lemma login_ends_loading (w : World) (username password : string)
      (r_login : Reply LoginResponse) (r_me : Reply UserResponse) :
  loading (auth (snd (AuthContext.login username password r_login r_me w))) = false.
Proof.
  destruct w as [[usr tk ld] d t f l fr].
  run_session; reflexivity.
Qed.

Lemma reachable_loading_false (w : World) : reachable w -> loading (auth w) = false.
Proof.
  induction 1 as [d t f | w op _ IH | w t f c _ IH].
  - reflexivity.
  - destruct op; cbn [run_op].
    + apply login_ends_loading.
    + destruct (logout_run w) as (_ & _ & _ & H & _). now rewrite H.
    + apply restoreSession_settles_run.
    + destruct (handleTokenExpiration_run w) as (_ & H & _).
      destruct (logout_run w) as (_ & _ & _ & H' & _).
      now rewrite H, H'.
  - exact IH.
Qed.

(** X10: between operations the application is never left on the loading
    indicator: in every settled state of a session history the loading flag
    is false, and the navigation root is the main stack when user identity
    and credential pair are both present, the login stack otherwise. *)
Theorem navigator_follows_session (w : World) :
  reachable w ->
  loading (auth w) = false /\
  App.AppNavigator (AuthContext.value (auth w))
  = (if AuthContext.is_some (user (auth w)) && AuthContext.is_some (tokens (auth w))
     then App.MainStack else App.AuthStack).
Proof.
  intro Hr. pose proof (reachable_loading_false Hr) as Hl.
  split; [exact Hl|].
  unfold App.AppNavigator, AuthContext.value. cbn.
  rewrite Hl. cbn. reflexivity.
Qed.

Lemma navigator_follows_session_witness :
  reachable after_login_world /\
  App.AppNavigator (AuthContext.value (auth after_login_world)) = App.MainStack.
Proof.
  assert (Hr : reachable after_login_world)
    by (rewrite <- after_login_world_run; apply reachable_op, reachable_start).
  split; [exact Hr|].
  exact (proj2 (@navigator_follows_session after_login_world Hr)).
Defined.

End SessionMore.

(** ** Remote calls and invoice screen: further properties *)

Module ScreenMore.
Import InvoicesScreen ScreenFacts.

(** X11: the authentication call settles with the credential pair of the
    answer exactly when the answer is a success (2xx) with a decodable
    body; every failure, whatever its cause, is the one error "Login
    failed".  It changes neither the session state nor the store. *)
Theorem authApi_login_one_failure (username password : string)
        (r : Reply LoginResponse) (w : World) :
  fst (authApi.login username password r w)
  = match r with
    | Answer response =>
        if (200 <=? http_status response) && (http_status response <=? 299)
        then match body response with
             | Some data => Return data
             | None => Throw (mkError "Login failed")
             end
        else Throw (mkError "Login failed")
    | NetworkFailure => Throw (mkError "Login failed")
    end /\
  auth (snd (authApi.login username password r w)) = auth w /\
  disk (snd (authApi.login username password r w)) = disk w /\
  faults (snd (authApi.login username password r w)) = faults w.
Proof.
  destruct (ApiFacts.login_run username password r w) as (k & l & E).
  rewrite E. clear E. destruct w as [a d t f c fr]. cbn.
  split; [|auto].
  unfold accepted, ok. destruct r as [|[st [data|]]]; cbn; try reflexivity;
    destruct ((200 <=? st) && (st <=? 299)); reflexivity.
Qed.

















End ScreenMore.

(** ** Financial metrics, currency display and cache: further properties *)

Module MetricsMore.
Import FinancialMetricsCalc MetricsFacts.










End MetricsMore.

Module DisplayMore.
Import Intl CurrencyFormat CurrencyFacts.



End DisplayMore.

Module CacheMore.
Import invoiceCache CacheFacts.

(** X20: a second write replaces the entry of the first and restarts the
    five minutes: a read at a time not after the second write plus five
    minutes gives the records of the second write, even when the first
    entry would have expired by then (the store working). *)
Theorem saveInvoiceCache_overwrites (w : World) (first second : list Invoice)
        (t2 t : Z) :
  faults w = [] ->
  t <= t2 + CACHE_TTL ->
  fst (loadInvoiceCache
         (set_clock t
            (snd (saveInvoiceCache second
                    (set_clock t2 (snd (saveInvoiceCache first w)))))))
  = Return (Some second).
Proof.
  intros Hf Ht.
  destruct (saveInvoiceCache_stores w first Hf) as (_ & Hf1 & _).
  set (w1 := set_clock t2 (snd (saveInvoiceCache first w))).
  assert (Hf1' : faults w1 = []) by exact Hf1.
  destruct (saveInvoiceCache_stores w1 second Hf1') as (_ & Hf2 & Hd2).
  set (w2 := snd (saveInvoiceCache second w1)) in *.
  assert (Hc : cache_item (disk (set_clock t w2))
               = Some (Serialized (mkCachedInvoiceData second t2 (t2 + CACHE_TTL))))
    by (cbn; rewrite Hd2; reflexivity).
  destruct (loadInvoiceCache_stored (set_clock t w2) Hf2 Hc) as [Hlive _].
  apply Hlive. exact Ht.
Qed.

Lemma saveInvoiceCache_overwrites_witness :
  faults sample_world = [] /\
  900000 <= 700000 + CACHE_TTL /\
  fst (loadInvoiceCache
         (set_clock 900000
            (snd (saveInvoiceCache []
                    (set_clock 700000
                       (snd (saveInvoiceCache FinancialMetricsCalc.scenario
                               sample_world)))))))
  = Return (Some []).
Proof.
  split; [reflexivity|]. split; [vm_compute; discriminate|].
  apply (@saveInvoiceCache_overwrites sample_world FinancialMetricsCalc.scenario []
           700000 900000 eq_refl).
  vm_compute. discriminate.
Defined.

End CacheMore.

(** ** Audit log: API and screen *)

Module AuditFacts.

Ltac audit_case :=
  cbn; repeat apply conj;
  first [ reflexivity
        | tauto
        | eexists; repeat apply conj; reflexivity
        | idtac ].

(** The request for the audit entries, settled. *)
Lemma fetchAuditLogs_run (A : Type) (accessToken network_message decode_message : string)
      (r : Reply A) (w : World) :
  match fst (auditApi.fetchAuditLogs accessToken network_message decode_message r w) with
  | Return found =>
      exists response, r = Answer response /\ ok response = true /\
                       body response = Some found
  | Throw e => In (message e) auditApi.audit_messages
  end /\
  (forall st b, r = answer st b -> ok (mkResponse st b) = false ->
     fst (auditApi.fetchAuditLogs accessToken network_message decode_message r w)
     = Throw (mkError (if (st =? 401) || (st =? 403) then "Token expired"
                       else if st >=? 500 then "Server error"
                       else "Network error"))) /\
  auth (snd (auditApi.fetchAuditLogs accessToken network_message decode_message r w))
  = auth w /\
  disk (snd (auditApi.fetchAuditLogs accessToken network_message decode_message r w))
  = disk w.
Proof.
  destruct w as [a d t f l fr]. unfold auditApi.fetchAuditLogs, auditApi.audit_messages.
  destruct r as [|[st [data|]]];
    unfold auditApi.fetch_or, auditApi.json_or, answer; unfold_async; cbn.
  - destruct (String.eqb_spec network_message "Token expired") as [->|];
      [|destruct (String.eqb_spec network_message "Server error") as [->|]]; cbn;
      [| |destruct (includes network_message "fetch" || includes network_message "network"
                    || includes network_message "timeout")];
      audit_case; intros st b H; discriminate H.
  - unfold ok. cbn. destruct ((200 <=? st) && (st <=? 299)) eqn:Hok; cbn.
    + repeat apply conj; try reflexivity.
      * eexists. split; [reflexivity|]. unfold ok. cbn. rewrite Hok. auto.
      * intros st' b H Hno. injection H as <- <-. unfold ok in Hno. cbn in Hno.
        congruence.
    + destruct ((st =? 401) || (st =? 403)) eqn:H401; cbn;
        [|destruct (st >=? 500) eqn:H500; cbn];
        audit_case;
        intros st' b H Hno; injection H as <- <-; rewrite H401, ?H500; reflexivity.
  - unfold ok. cbn. destruct ((200 <=? st) && (st <=? 299)) eqn:Hok; cbn.
    + destruct (String.eqb_spec decode_message "Token expired") as [->|];
        [|destruct (String.eqb_spec decode_message "Server error") as [->|]]; cbn;
        [| |destruct (includes decode_message "fetch" || includes decode_message "network"
                      || includes decode_message "timeout")];
        audit_case;
        intros st' b H Hno; injection H as <- <-; unfold ok in Hno; cbn in Hno;
        congruence.
    + destruct ((st =? 401) || (st =? 403)) eqn:H401; cbn;
        [|destruct (st >=? 500) eqn:H500; cbn];
        audit_case;
        intros st' b H Hno; injection H as <- <-; rewrite H401, ?H500; reflexivity.
Qed.

(** X21: when the service answers the request for the audit entries with a
    status outside 200..299, the request rejects with "Token expired" for
    401 and 403, with "Server error" for 500 and above, and with "Network
    error" for every other status: the generic message the code throws for
    those contains the word "fetch", which its own handler takes for a
    network failure. *)
Theorem fetchAuditLogs_by_status (A : Type)
        (accessToken network_message decode_message : string)
        (st : Z) (b : option A) (w : World) :
  ok (mkResponse st b) = false ->
  fst (auditApi.fetchAuditLogs accessToken network_message decode_message
         (answer st b) w)
  = Throw (mkError (if (st =? 401) || (st =? 403) then "Token expired"
                    else if st >=? 500 then "Server error"
                    else "Network error")).
Proof.
  intro Hno.
  destruct (fetchAuditLogs_run accessToken network_message decode_message
              (answer st b) w) as (_ & H & _).
  exact (H st b eq_refl Hno).
Qed.

Lemma fetchAuditLogs_by_status_witness :
  ok (mkResponse 404 (@None (list nat))) = false /\
  fst (auditApi.fetchAuditLogs "access-1" "Network request failed" "JSON Parse error"
         (answer 404 (@None (list nat))) signed_in_world)
  = Throw (mkError "Network error").
Proof.
  split; [reflexivity|].
  exact (@fetchAuditLogs_by_status (list nat) "access-1" "Network request failed"
           "JSON Parse error" 404 None signed_in_world eq_refl).
Defined.

(** X22: the request for the audit entries settles with entries only on a
    success answer with a decodable body, and otherwise rejects with one of
    four messages, "Token expired", "Server error", "Network error" and
    "Failed to fetch audit logs", whatever the messages of the errors of the
    platform; it changes neither the session state nor the store. *)
Theorem fetchAuditLogs_settlements (A : Type)
        (accessToken network_message decode_message : string)
        (r : Reply A) (w : World) :
  match fst (auditApi.fetchAuditLogs accessToken network_message decode_message r w) with
  | Return found =>
      exists response, r = Answer response /\ ok response = true /\
                       body response = Some found
  | Throw e => In (message e) auditApi.audit_messages
  end /\
  auth (snd (auditApi.fetchAuditLogs accessToken network_message decode_message r w))
  = auth w /\
  disk (snd (auditApi.fetchAuditLogs accessToken network_message decode_message r w))
  = disk w.
Proof.
  destruct (fetchAuditLogs_run accessToken network_message decode_message r w)
    as (H & _ & Ha & Hd).
  auto.
Qed.

Ltac unfold_audit_screen :=
  unfold AuditLogScreen.loadAuditLogs, AuditLogScreen.setEntries,
    AuditLogScreen.setIsLoading, AuditLogScreen.setError in *.

Lemma errorText_of_audit_message (e : Error) :
  In (message e) auditApi.audit_messages ->
  AuditLogScreen.errorText e
  = (if String.eqb (message e) "Token expired"
     then "Authentication expired. Please log in again."
     else if String.eqb (message e) "Network error"
          then "Unable to connect to server. Please check your network connection."
          else if String.eqb (message e) "Server error"
               then "Server error occurred. Please try again later."
               else "Unable to load audit logs. Please try again.") /\
  AuditLogScreen.errorText e <> "You do not have permission to view audit logs.".
Proof.
  destruct e as [m]. cbn. unfold AuditLogScreen.errorText. cbn.
  intros [<-|[<-|[<-|[<-|[]]]]]; cbn; split; (reflexivity || discriminate).
Qed.

(** X23: with an access token, when the service answers the request for the
    audit entries with a status outside 200..299, [loadAuditLogs] keeps the
    entries it had, turns the loading indicator off and shows
    "Authentication expired. Please log in again." for 401 and 403, "Server
    error occurred. Please try again later." for 500 and above, and "Unable
    to connect to server. Please check your network connection." for every
    other status. *)
Theorem loadAuditLogs_error_by_status (AuditLogEntry : Type)
        (network_message decode_message : string)
        (st : Z) (b : option (list AuditLogEntry))
        (s : World * AuditLogScreen.ScreenState AuditLogEntry) (accessToken : string) :
  InvoicesScreen.truthy_access_token (tokens (auth (fst s))) = Some accessToken ->
  ok (mkResponse st b) = false ->
  snd (snd (AuditLogScreen.loadAuditLogs network_message decode_message (answer st b) s))
  = AuditLogScreen.mkScreenState (AuditLogScreen.entries (snd s)) false
      (Some (if (st =? 401) || (st =? 403)
             then "Authentication expired. Please log in again."
             else if st >=? 500
                  then "Server error occurred. Please try again later."
                  else "Unable to connect to server. Please check your network connection.")).
Proof.
  intros Htok Hno. destruct s as [[a d t f l fr] sc].
  unfold_audit_screen. cbn in Htok |- *. rewrite Htok.
  unfold_async. cbn -[auditApi.fetchAuditLogs].
  match goal with
  | |- context [auditApi.fetchAuditLogs ?tok ?nm ?dm ?r ?W] =>
      pose proof (@fetchAuditLogs_by_status _ tok nm dm st b W Hno) as H;
      destruct (auditApi.fetchAuditLogs tok nm dm r W) as [o w']
  end.
  cbn in H. subst o. cbn.
  destruct ((st =? 401) || (st =? 403)); [reflexivity|].
  destruct (st >=? 500); reflexivity.
Qed.

Lemma loadAuditLogs_error_by_status_witness :
  InvoicesScreen.truthy_access_token (tokens (auth signed_in_world)) = Some "access-1" /\
  ok (mkResponse 404 (@None (list nat))) = false /\
  snd (snd (AuditLogScreen.loadAuditLogs "Network request failed" "JSON Parse error"
              (answer 404 None)
              (signed_in_world, AuditLogScreen.mkScreenState [1%nat; 2%nat] false None)))
  = AuditLogScreen.mkScreenState [1%nat; 2%nat] false
      (Some "Unable to connect to server. Please check your network connection.").
Proof.
  split; [reflexivity|]. split; [reflexivity|].
  exact (@loadAuditLogs_error_by_status nat "Network request failed" "JSON Parse error"
           404 None
           (signed_in_world, AuditLogScreen.mkScreenState [1%nat; 2%nat] false None)
           "access-1" eq_refl eq_refl).
Defined.

(** X24: [loadAuditLogs] never rejects and always ends with the loading
    indicator off; whatever the service answers and whatever the messages of
    the errors of the platform, it never shows "You do not have permission
    to view audit logs."; and it leaves the session state and the store as
    they were, an answer 401 or 403 included. *)
Theorem loadAuditLogs_settles (AuditLogEntry : Type)
        (network_message decode_message : string)
        (r : Reply (list AuditLogEntry))
        (s : World * AuditLogScreen.ScreenState AuditLogEntry) :
  fst (AuditLogScreen.loadAuditLogs network_message decode_message r s) = Return tt /\
  AuditLogScreen.isLoading
    (snd (snd (AuditLogScreen.loadAuditLogs network_message decode_message r s)))
  = false /\
  AuditLogScreen.error
    (snd (snd (AuditLogScreen.loadAuditLogs network_message decode_message r s)))
  <> Some "You do not have permission to view audit logs." /\
  auth (fst (snd (AuditLogScreen.loadAuditLogs network_message decode_message r s)))
  = auth (fst s) /\
  disk (fst (snd (AuditLogScreen.loadAuditLogs network_message decode_message r s)))
  = disk (fst s).
Proof.
  destruct s as [[a d t f l fr] sc].
  unfold_audit_screen. cbn -[auditApi.fetchAuditLogs].
  destruct (InvoicesScreen.truthy_access_token (tokens a)) as [tok|];
    unfold_async; cbn -[auditApi.fetchAuditLogs];
    [|repeat apply conj; try reflexivity; discriminate].
  match goal with
  | |- context [auditApi.fetchAuditLogs ?tok ?nm ?dm ?r ?W] =>
      destruct (fetchAuditLogs_run tok nm dm r W) as (H & _ & Ha & Hd);
      destruct (auditApi.fetchAuditLogs tok nm dm r W) as [[found|e] w']
  end; cbn in *; repeat apply conj; try reflexivity; try assumption;
    try discriminate.
  destruct (errorText_of_audit_message e H) as [_ Hne]. congruence.
Qed.

End AuditFacts.

(** ** Login screen and profile icon *)

Module UiFacts.
Import SessionFacts.

(** X25: [handleLoginPress] (without [onLogin] callback, as the application
    mounts the screen) never rejects; it raises no alert when the login goes
    through, and otherwise exactly one alert, always the same one, "Login
    Failed" / "Login failed. Please try again.", whether the credentials
    were refused, the service was unreachable, the profile fetch was
    answered 401 or a write to the store failed. *)
Theorem handleLoginPress_one_alert (trim : string -> string) (email password : string)
        (r_login : Reply LoginResponse) (r_me : Reply UserResponse)
        (s : World * LoginScreen.Ui) :
  fst (LoginScreen.handleLoginPress trim email password None r_login r_me s) = Return tt /\
  snd (snd (LoginScreen.handleLoginPress trim email password None r_login r_me s))
  = (if LoginScreen.login_goes_through r_login r_me (fst s)
     then snd s
     else ("Login Failed", "Login failed. Please try again.") :: snd s).
Proof.
  destruct s as [[a d t f l fr] ui].
  unfold LoginScreen.handleLoginPress, LoginScreen.Alert_alert, LoginScreen.login_goes_through.
  unfold_session; unfold_async; cbn -[authApi.login authApi.fetchUser].
  settle_remote. destruct (accepted r_login) as [tk|];
    cbn -[authApi.login authApi.fetchUser]; [|split; reflexivity].
  settle_remote. destruct (profile r_me) as [usr|e];
    cbn -[authApi.login authApi.fetchUser]; [|split; reflexivity].
  destruct f as [|[|] [|[|] f]]; cbn; split; reflexivity.
Qed.

(** X26: [formatRole] turns the first underscore of a role into a space and
    nothing else: the length is kept, the number of underscores goes down
    by one if there was any, and none is left in any of the four roles. *)
Theorem formatRole_first_underscore (role : string) :
  String.length (UserProfileIcon.formatRole role) = String.length role /\
  UserProfileIcon.underscores (UserProfileIcon.formatRole role)
  = Nat.pred (UserProfileIcon.underscores role) /\
  (forall r : UserRole,
      UserProfileIcon.underscores
        (UserProfileIcon.formatRole (UserProfileIcon.role_name r)) = O).
Proof.
  split; [|split].
  - unfold UserProfileIcon.formatRole.
    induction role as [|c rest IH]; cbn; [reflexivity|].
    destruct (Ascii.eqb c "_"%char); cbn; congruence.
  - unfold UserProfileIcon.formatRole.
    induction role as [|c rest IH]; cbn; [reflexivity|].
    destruct (Ascii.eqb c "_"%char) eqn:E; cbn; [reflexivity|].
    rewrite E. exact IH.
  - intros []; reflexivity.
Qed.

(** X27: the logout of the profile modal never rejects, always closes the
    modal and always ends with user identity and credential pair absent,
    whether or not the store fails. *)
Theorem handleLogout_closes (s : World * bool) :
  fst (UserProfileIcon.handleLogout s) = Return tt /\
  snd (snd (UserProfileIcon.handleLogout s)) = false /\
  user (auth (fst (snd (UserProfileIcon.handleLogout s)))) = None /\
  tokens (auth (fst (snd (UserProfileIcon.handleLogout s)))) = None.
Proof.
  destruct s as [[[usr tk ld] d t f l fr] visible].
  unfold UserProfileIcon.handleLogout, UserProfileIcon.setModalVisible.
  destruct f as [|[|] [|[|] f]]; cbn; repeat apply conj; reflexivity.
Qed.

End UiFacts.

(** ** Invoice list and audit timestamps *)

Module ViewFacts.
Import InvoiceList.

(** X28: the display status of a record is Paid exactly when its status is
    "paid", and Overdue exactly when its status is "unpaid" or "pending" and
    its due date is given, parses and lies before the current time; in
    every other case (an unknown status, no due date, a due date that does
    not parse, a due date not yet passed) it is Pending. *)
Theorem mapApiStatusToDisplay_table (Date_parse : string -> option Z) (now : Z)
        (api_status : string) (due_date : option string) :
  (mapApiStatusToDisplay Date_parse now api_status due_date = Paid
   <-> api_status = "paid") /\
  (mapApiStatusToDisplay Date_parse now api_status due_date = Overdue
   <-> (api_status = "unpaid" \/ api_status = "pending") /\
       exists d t, due_date = Some d /\ d <> EmptyString /\
                   Date_parse d = Some t /\ t < now) /\
  (mapApiStatusToDisplay Date_parse now api_status due_date = Pending
   <-> api_status <> "paid" /\
       ~ ((api_status = "unpaid" \/ api_status = "pending") /\
          exists d t, due_date = Some d /\ d <> EmptyString /\
                      Date_parse d = Some t /\ t < now)).
Proof.
  assert (Hdue : is_before (due_of Date_parse due_date) now = true
                 <-> exists d t, due_date = Some d /\ d <> EmptyString /\
                                 Date_parse d = Some t /\ t < now).
  { unfold is_before, due_of. destruct due_date as [d|].
    - destruct (String.eqb_spec d EmptyString) as [->|Hd].
      + split; [discriminate|]. intros (d' & t & H & Hn & _).
        injection H as <-. now elim Hn.
      + destruct (Date_parse d) as [t|] eqn:Hp.
        * split.
          -- intro H. exists d, t. repeat split; auto. now apply Z.ltb_lt.
          -- intros (d' & t' & H & _ & Hp' & Hlt). injection H as <-.
             rewrite Hp in Hp'. injection Hp' as <-. now apply Z.ltb_lt.
        * split; [discriminate|]. intros (d' & t' & H & _ & Hp' & _).
          injection H as <-. congruence.
    - split; [discriminate|]. intros (d' & t' & H & _). discriminate H. }
  unfold mapApiStatusToDisplay.
  set (b := is_before (due_of Date_parse due_date) now) in *.
  set (D := exists d t, due_date = Some d /\ d <> EmptyString /\
                        Date_parse d = Some t /\ t < now) in *.
  clearbody b D.
  destruct (String.eqb_spec api_status "paid") as [->|Hpaid]; cbn.
  { intuition (try discriminate; try congruence). }
  destruct (String.eqb_spec api_status "unpaid") as [->|Hu];
    [|destruct (String.eqb_spec api_status "pending") as [->|Hp]]; cbn;
    destruct b; cbn;
    intuition (try reflexivity; try discriminate; try congruence).
Qed.

Lemma length_three_way {A : Type} (p1 p2 p3 : A -> bool) (l : list A) :
  (forall x, (Nat.b2n (p1 x) + Nat.b2n (p2 x) + Nat.b2n (p3 x) = 1)%nat) ->
  List.length l
  = (List.length (filter p1 l) + List.length (filter p2 l)
     + List.length (filter p3 l))%nat.
Proof.
  intro H. induction l as [|x l IH]; [reflexivity|].
  specialize (H x). cbn [filter].
  destruct (p1 x), (p2 x), (p3 x); cbn in H; try discriminate H;
    cbn [List.length]; lia.
Qed.

Lemma filter_count (invoices : list DisplayInvoice) :
  List.length invoices
  = (List.length (filteredInvoices "Paid" invoices)
     + List.length (filteredInvoices "Pending" invoices)
     + List.length (filteredInvoices "Overdue" invoices))%nat.
Proof.
  unfold filteredInvoices. apply length_three_way.
  intro inv. destruct (status inv); reflexivity.
Qed.

(** X29: the filter "All" shows every record; each record is shown under
    exactly one of the filters "Paid", "Pending" and "Overdue", so the three
    lists together have as many records as the whole, each holding only
    records of its status; and a filter of any other name shows nothing. *)
Theorem filteredInvoices_partition (invoices : list DisplayInvoice) :
  filteredInvoices "All" invoices = invoices /\
  List.length invoices
  = (List.length (filteredInvoices "Paid" invoices)
     + List.length (filteredInvoices "Pending" invoices)
     + List.length (filteredInvoices "Overdue" invoices))%nat /\
  (forall (s : InvoiceStatus) (inv : DisplayInvoice),
      In inv (filteredInvoices (status_label s) invoices)
      <-> In inv invoices /\ status inv = s) /\
  (forall name : string, ~ In name filters -> filteredInvoices name invoices = []).
Proof.
  split; [|split; [apply filter_count|split]].
  - unfold filteredInvoices. cbn. induction invoices; cbn; congruence.
  - intros s inv. unfold filteredInvoices. rewrite filter_In.
    destruct s, (status inv) eqn:E; cbn; intuition congruence.
  - intros name Hn. unfold filteredInvoices, filters in *. cbn in Hn.
    induction invoices as [|inv rest IH]; cbn; [reflexivity|].
    destruct (String.eqb_spec name "All") as [->|_]; [tauto|].
    destruct (String.eqb_spec (status_label (status inv)) name) as [<-|_].
    + destruct (status inv); cbn in Hn; tauto.
    + cbn in IH. destruct (String.eqb_spec name "All") as [->|_]; [tauto|exact IH].
Qed.

(** X30: for a timestamp that parses, [formatTimestamp] goes by the time
    elapsed: "Just now" under one minute (a timestamp in the future
    included); the whole minutes elapsed, from 1 to 59, under one hour; the
    whole hours elapsed, from 1 to 23, under one day, each with "s" unless
    the number is 1; "Yesterday at" the time of day from 24 hours to under
    48 hours; and the date and time of day from then on. *)
Theorem formatTimestamp_by_elapsed_time
        (Date_parse : string -> option Z)
        (toLocaleTimeString : option Z -> string)
        (toLocaleDateString : bool -> option Z -> string)
        (sameYear : Z -> Z -> bool)
        (now : Z) (timestamp : string) (date : Z) :
  Date_parse timestamp = Some date ->
  (now - date < 60000 ->
   auditFormatting.formatTimestamp Date_parse toLocaleTimeString toLocaleDateString
     sameYear now timestamp = "Just now") /\
  (60000 <= now - date < 3600000 ->
   1 <= (now - date) / 60000 <= 59 /\
   auditFormatting.formatTimestamp Date_parse toLocaleTimeString toLocaleDateString
     sameYear now timestamp
   = (auditFormatting.number_text ((now - date) / 60000)%Z ++ " minute"
        ++ (if ((now - date) / 60000 =? 1)%Z then EmptyString else "s") ++ " ago")%string) /\
  (3600000 <= now - date < 86400000 ->
   1 <= (now - date) / 3600000 <= 23 /\
   auditFormatting.formatTimestamp Date_parse toLocaleTimeString toLocaleDateString
     sameYear now timestamp
   = (auditFormatting.number_text ((now - date) / 3600000)%Z ++ " hour"
        ++ (if ((now - date) / 3600000 =? 1)%Z then EmptyString else "s") ++ " ago")%string) /\
  (86400000 <= now - date < 172800000 ->
   auditFormatting.formatTimestamp Date_parse toLocaleTimeString toLocaleDateString
     sameYear now timestamp
   = ("Yesterday at " ++ toLocaleTimeString (Some date))%string) /\
  (172800000 <= now - date ->
   auditFormatting.formatTimestamp Date_parse toLocaleTimeString toLocaleDateString
     sameYear now timestamp
   = (toLocaleDateString (negb (sameYear date now)) (Some date)
        ++ " at " ++ toLocaleTimeString (Some date))%string).
Proof.
  intro Hp. unfold auditFormatting.formatTimestamp. rewrite Hp. cbv zeta.
  set (diff := now - date).
  pose proof (Z.div_mod diff 60000 ltac:(lia)) as Hm.
  pose proof (Z.mod_pos_bound diff 60000 ltac:(lia)) as Hm'.
  pose proof (Z.div_mod diff 3600000 ltac:(lia)) as Hh.
  pose proof (Z.mod_pos_bound diff 3600000 ltac:(lia)) as Hh'.
  pose proof (Z.div_mod diff 86400000 ltac:(lia)) as Hd.
  pose proof (Z.mod_pos_bound diff 86400000 ltac:(lia)) as Hd'.
  repeat apply conj; intro H.
  - destruct (Z.ltb_spec (diff / 60000) 1); [reflexivity|lia].
  - split; [lia|].
    destruct (Z.ltb_spec (diff / 60000) 1); [lia|].
    destruct (Z.ltb_spec (diff / 60000) 60); [|lia].
    destruct (diff / 60000 =? 1); reflexivity.
  - split; [lia|].
    destruct (Z.ltb_spec (diff / 60000) 1); [lia|].
    destruct (Z.ltb_spec (diff / 60000) 60); [lia|].
    destruct (Z.ltb_spec (diff / 3600000) 24); [|lia].
    destruct (diff / 3600000 =? 1); reflexivity.
  - destruct (Z.ltb_spec (diff / 60000) 1); [lia|].
    destruct (Z.ltb_spec (diff / 60000) 60); [lia|].
    destruct (Z.ltb_spec (diff / 3600000) 24); [lia|].
    destruct (Z.eqb_spec (diff / 86400000) 1); [reflexivity|lia].
  - destruct (Z.ltb_spec (diff / 60000) 1); [lia|].
    destruct (Z.ltb_spec (diff / 60000) 60); [lia|].
    destruct (Z.ltb_spec (diff / 3600000) 24); [lia|].
    destruct (Z.eqb_spec (diff / 86400000) 1); [lia|reflexivity].
Qed.

Lemma formatTimestamp_by_elapsed_time_witness :
  (fun _ : string => Some 0) "2024-12-19T10:00:00Z" = Some 0 /\
  auditFormatting.formatTimestamp (fun _ => Some 0) (fun _ => "10:00 AM")
    (fun _ _ => "Dec 19") (fun _ _ => true) 125000 "2024-12-19T10:00:00Z"
  = "2 minutes ago".
Proof.
  split; [reflexivity|].
  destruct (@formatTimestamp_by_elapsed_time (fun _ => Some 0) (fun _ => "10:00 AM")
              (fun _ _ => "Dec 19") (fun _ _ => true) 125000 "2024-12-19T10:00:00Z" 0
              eq_refl) as (_ & H & _).
  destruct H as [_ H]; [lia|].
  exact H.
Defined.

End ViewFacts.
